(** * Streamlit-Authenticator: a shallow embedding of [authenticate.py]

    The class [Authenticate] is embedded as a record of its attributes.  The
    session state of the host framework, the cookie jar of the browser, the
    messages shown in the forms, what is printed, the random source and the
    clock are gathered with it in a [world], and every method is a
    computation in a state-and-exception monad over that world: Python
    mutates shared objects, so a raised exception keeps the state reached
    so far.

    The libraries that the class calls (bcrypt, PyJWT) and the two modules
    of the package that [authenticate.py] imports ([hasher], [utils]) are an
    interface of the development, [Libraries]: the theorems hold for every
    implementation of it.  The widgets of the framework are the arguments of
    the methods: what the user typed and whether the button was pressed.

    Conventions: strings are byte strings; times are whole seconds, a
    [datetime] being the number of seconds from the epoch to it, within the
    years 1 to 9999.  The cookie manager is the one of
    [extra_streamlit_components]: it keeps the cookies of the browser in a
    dictionary, does nothing for the empty cookie name, and deletes with
    [del], which raises [KeyError] for a cookie that is not there. *)

From Stdlib Require Import ZArith NArith Strings.String Strings.Ascii Lia.
From stdpp Require Import gmap strings list fin_maps pretty.

Local Open Scope string_scope.
Local Open Scope Z_scope.

(** ** Python values *)

(** The values that session state and token payloads hold. *)
Inductive pyval :=
  | PyNone
  | PyBool (b : bool)
  | PyNum (z : Z)
  | PyStr (s : string).

#[global] Instance pyval_eq_dec : EqDecision pyval.
Proof. solve_decision. Defined.

(** Python truth value, as tested by [if v] and [not v]. *)
Definition truthy (v : pyval) : bool :=
  match v with
  | PyNone => false
  | PyBool b => b
  | PyNum z => negb (z =? 0)
  | PyStr s => negb (String.eqb s "")
  end.

Definition Z_of_bool (b : bool) : Z := if b then 1 else 0.

(** Python [==]: booleans are the numbers 0 and 1. *)
Definition py_eq (a b : pyval) : bool :=
  match a, b with
  | PyNone, PyNone => true
  | PyBool x, PyBool y => Bool.eqb x y
  | PyNum x, PyNum y => x =? y
  | PyBool x, PyNum y => Z_of_bool x =? y
  | PyNum x, PyBool y => x =? Z_of_bool y
  | PyStr x, PyStr y => String.eqb x y
  | _, _ => false
  end.

(** The exceptions that the modelled code and its libraries raise; all of
    them derive from Python's [Exception]. *)
Inductive exn :=
  | ValueError (msg : string)
  | KeyError (k : string)
  | TypeError (msg : string)
  | OverflowError (msg : string)
  | InvalidKeyError (msg : string)
  | InvalidTokenError (msg : string).

Inductive outcome (A : Type) :=
  | Ok (a : A)
  | Raise (e : exn).
Arguments Ok {A} a.
Arguments Raise {A} e.

(** ** [str.lower] *)

(** Strings are byte strings here: [lower] maps the letters A-Z to a-z and
    keeps every other byte. *)
Definition lower_ascii (c : ascii) : ascii :=
  let n := nat_of_ascii c in
  if ((65 <=? n) && (n <=? 90))%nat then ascii_of_nat (n + 32) else c.

Fixpoint lower (s : string) : string :=
  match s with
  | EmptyString => EmptyString
  | String c s' => String (lower_ascii c) (lower s')
  end.

(** [len(s)] *)
Definition len (s : string) : Z := Z.of_nat (String.length s).

(** ** The data model *)

(** One entry of [credentials['usernames']]: the dictionary with the keys
    ['name'], ['password'] and ['email']. *)
Record user := mkUser {
  user_name : string;
  user_password : string;
  user_email : string;
}.

(** The [preauthorized] argument: [None], a list, or the dictionary with the
    key ['emails'] that [register_user] indexes. *)
Inductive preauth :=
  | PreNone
  | PreList (l : list string)
  | PreDict (d : gmap string (list string)).

Definition preauth_truthy (p : preauth) : bool :=
  match p with
  | PreNone => false
  | PreList l => match l with [] => false | _ => true end
  | PreDict d => negb (bool_decide (d = ∅))
  end.

(** [st.session_state], restricted to the four keys of the class. *)
Record session_state := mkSession {
  ss_name : pyval;
  ss_authentication_status : pyval;
  ss_username : pyval;
  ss_logout : pyval;
}.

(** What a form shows to the user. *)
Inductive message :=
  | Success (text : string)
  | Warning (text : string)
  | Error (text : string).

(** The two clock readings of the code, in seconds:
    [datetime.utcnow().timestamp()] and [datetime.now()]. *)
Record clock := mkClock {
  utcnow : Z;
  now : Z;
}.

(** The seconds of [n] days. *)
Definition timedelta_days (n : Z) : Z := n * 86400.

(** [timedelta(days=n)], in seconds: the constructor refuses more than
    999999999 days. *)
Definition timedelta (days : Z) : outcome Z :=
  if Z.abs days <=? 999999999 then Ok (timedelta_days days)
  else Raise (OverflowError
                ("days=" +:+ pretty days +:+ "; must have magnitude <= 999999999")).

(** [datetime.min] and [datetime.max]: the first second of the year 1 and
    the last second of the year 9999. *)
Definition datetime_min : Z := -62135596800.
Definition datetime_max : Z := 253402300799.

(** [t + d] for a [datetime] and a [timedelta]: the sum has to be a
    [datetime]. *)
Definition datetime_add (t d : Z) : outcome Z :=
  if (datetime_min <=? t + d) && (t + d <=? datetime_max) then Ok (t + d)
  else Raise (OverflowError "date value out of range").

(** [t + timedelta(days=n)] *)
Definition datetime_plus_days (t n : Z) : outcome Z :=
  match timedelta n with
  | Ok d => datetime_add t d
  | Raise e => Raise e
  end.

(** ** The libraries *)

(** What [authenticate.py] imports.  [jwt] is the type of encoded tokens
    (a [str] in Python); [jwt_encode p k] is [jwt.encode(p, k,
    algorithm='HS256')], which raises for a key it refuses, and
    [jwt_decode t k] is [jwt.decode(t, k, algorithms=['HS256'])], which
    raises on a token it does not accept; [checkpw p h] is
    [bcrypt.checkpw(p.encode(), h.encode())], which raises on a malformed
    hash.  [Hasher_generate n p] stands for [Hasher([p]).generate()[0]] of
    the package's [hasher] module, which raises for a password that bcrypt
    refuses, and [generate_random_pw n] for the function of its [utils]
    module; both are random, and [n] is the state of the random source they
    draw from. *)
Class Libraries := {
  jwt : Type;
  jwt_encode : gmap string pyval -> string -> outcome jwt;
  jwt_decode : jwt -> string -> outcome (gmap string pyval);
  checkpw : string -> string -> outcome bool;
  Hasher_generate : N -> string -> outcome string;
  generate_random_pw : N -> string;
}.

Section Authenticate.

Context {L : Libraries}.

(** The values that [self.token] takes: unset or [None], the cookie's
    string, [False] after a failed decoding, the decoded dictionary. *)
Inductive tokval :=
  | TokNone
  | TokStr (t : jwt)
  | TokFalse
  | TokDict (d : gmap string pyval).

(** A cookie of the browser, as [cookie_manager.set] stores it. *)
Record cookie := mkCookie {
  cookie_value : jwt;
  cookie_expires_at : Z;
}.

(** [cookie_manager.set(name, ...)]: nothing is stored under the empty
    name. *)
Definition cookie_manager_set (name : string) (c : cookie)
    (jar : gmap string cookie) : gmap string cookie :=
  if String.eqb name "" then jar else <[name := c]> jar.

(** [cookie_manager.delete(name)]: nothing is done for the empty name;
    otherwise the entry is deleted with [del], which raises when there is
    none. *)
Definition cookie_manager_delete (name : string) (jar : gmap string cookie)
  : outcome (gmap string cookie) :=
  if String.eqb name "" then Ok jar
  else match jar !! name with
       | Some _ => Ok (delete name jar)
       | None => Raise (KeyError name)
       end.

(** The attributes of an [Authenticate] object.  [credentials] is
    [self.credentials['usernames']].  The attributes from [username] on are
    created by the methods that assign them; every method reads them only
    after such an assignment. *)
Record Authenticate := mkAuthenticate {
  credentials : gmap string user;
  cookie_name : string;
  key : string;
  cookie_expiry_days : Z;
  preauthorized : preauth;
  username : string;
  password : string;
  token : tokval;
  exp_date : Z;
  new_password : string;
  new_password_repeat : string;
  new_username : string;
  new_name : string;
  registered_email : string;
  preauthorization : bool;
  random_password : string;
}.

(** Everything the methods read and write; [time] holds what the clock
    shows while a method runs. *)
Record world := mkWorld {
  self : Authenticate;
  session : session_state;
  cookies : gmap string cookie;
  ui : list message;
  stdout : list exn;
  entropy : N;
  time : clock;
}.

(** *** Attribute assignment *)

Definition set_credentials (v : gmap string user) (a : Authenticate) : Authenticate :=
  mkAuthenticate v (cookie_name a) (key a) (cookie_expiry_days a) (preauthorized a)
    (username a) (password a) (token a) (exp_date a) (new_password a)
    (new_password_repeat a) (new_username a) (new_name a) (registered_email a)
    (preauthorization a) (random_password a).

Definition set_preauthorized (v : preauth) (a : Authenticate) : Authenticate :=
  mkAuthenticate (credentials a) (cookie_name a) (key a) (cookie_expiry_days a) v
    (username a) (password a) (token a) (exp_date a) (new_password a)
    (new_password_repeat a) (new_username a) (new_name a) (registered_email a)
    (preauthorization a) (random_password a).

Definition set_username (v : string) (a : Authenticate) : Authenticate :=
  mkAuthenticate (credentials a) (cookie_name a) (key a) (cookie_expiry_days a)
    (preauthorized a) v (password a) (token a) (exp_date a) (new_password a)
    (new_password_repeat a) (new_username a) (new_name a) (registered_email a)
    (preauthorization a) (random_password a).

Definition set_password (v : string) (a : Authenticate) : Authenticate :=
  mkAuthenticate (credentials a) (cookie_name a) (key a) (cookie_expiry_days a)
    (preauthorized a) (username a) v (token a) (exp_date a) (new_password a)
    (new_password_repeat a) (new_username a) (new_name a) (registered_email a)
    (preauthorization a) (random_password a).

Definition set_token (v : tokval) (a : Authenticate) : Authenticate :=
  mkAuthenticate (credentials a) (cookie_name a) (key a) (cookie_expiry_days a)
    (preauthorized a) (username a) (password a) v (exp_date a) (new_password a)
    (new_password_repeat a) (new_username a) (new_name a) (registered_email a)
    (preauthorization a) (random_password a).

Definition set_exp_date (v : Z) (a : Authenticate) : Authenticate :=
  mkAuthenticate (credentials a) (cookie_name a) (key a) (cookie_expiry_days a)
    (preauthorized a) (username a) (password a) (token a) v (new_password a)
    (new_password_repeat a) (new_username a) (new_name a) (registered_email a)
    (preauthorization a) (random_password a).

Definition set_new_password (v : string) (a : Authenticate) : Authenticate :=
  mkAuthenticate (credentials a) (cookie_name a) (key a) (cookie_expiry_days a)
    (preauthorized a) (username a) (password a) (token a) (exp_date a) v
    (new_password_repeat a) (new_username a) (new_name a) (registered_email a)
    (preauthorization a) (random_password a).

Definition set_new_password_repeat (v : string) (a : Authenticate) : Authenticate :=
  mkAuthenticate (credentials a) (cookie_name a) (key a) (cookie_expiry_days a)
    (preauthorized a) (username a) (password a) (token a) (exp_date a)
    (new_password a) v (new_username a) (new_name a) (registered_email a)
    (preauthorization a) (random_password a).

Definition set_new_username (v : string) (a : Authenticate) : Authenticate :=
  mkAuthenticate (credentials a) (cookie_name a) (key a) (cookie_expiry_days a)
    (preauthorized a) (username a) (password a) (token a) (exp_date a)
    (new_password a) (new_password_repeat a) v (new_name a) (registered_email a)
    (preauthorization a) (random_password a).

Definition set_new_name (v : string) (a : Authenticate) : Authenticate :=
  mkAuthenticate (credentials a) (cookie_name a) (key a) (cookie_expiry_days a)
    (preauthorized a) (username a) (password a) (token a) (exp_date a)
    (new_password a) (new_password_repeat a) (new_username a) v (registered_email a)
    (preauthorization a) (random_password a).

Definition set_registered_email (v : string) (a : Authenticate) : Authenticate :=
  mkAuthenticate (credentials a) (cookie_name a) (key a) (cookie_expiry_days a)
    (preauthorized a) (username a) (password a) (token a) (exp_date a)
    (new_password a) (new_password_repeat a) (new_username a) (new_name a) v
    (preauthorization a) (random_password a).

Definition set_preauthorization (v : bool) (a : Authenticate) : Authenticate :=
  mkAuthenticate (credentials a) (cookie_name a) (key a) (cookie_expiry_days a)
    (preauthorized a) (username a) (password a) (token a) (exp_date a)
    (new_password a) (new_password_repeat a) (new_username a) (new_name a)
    (registered_email a) v (random_password a).

Definition set_random_password (v : string) (a : Authenticate) : Authenticate :=
  mkAuthenticate (credentials a) (cookie_name a) (key a) (cookie_expiry_days a)
    (preauthorized a) (username a) (password a) (token a) (exp_date a)
    (new_password a) (new_password_repeat a) (new_username a) (new_name a)
    (registered_email a) (preauthorization a) v.

Definition with_self (f : Authenticate -> Authenticate) (w : world) : world :=
  mkWorld (f (self w)) (session w) (cookies w) (ui w) (stdout w) (entropy w) (time w).

Definition with_session (f : session_state -> session_state) (w : world) : world :=
  mkWorld (self w) (f (session w)) (cookies w) (ui w) (stdout w) (entropy w) (time w).

Definition with_cookies (f : gmap string cookie -> gmap string cookie) (w : world) : world :=
  mkWorld (self w) (session w) (f (cookies w)) (ui w) (stdout w) (entropy w) (time w).

Definition with_ui (f : list message -> list message) (w : world) : world :=
  mkWorld (self w) (session w) (cookies w) (f (ui w)) (stdout w) (entropy w) (time w).

Definition with_stdout (f : list exn -> list exn) (w : world) : world :=
  mkWorld (self w) (session w) (cookies w) (ui w) (f (stdout w)) (entropy w) (time w).

Definition with_entropy (f : N -> N) (w : world) : world :=
  mkWorld (self w) (session w) (cookies w) (ui w) (stdout w) (f (entropy w)) (time w).

Definition set_ss_name (v : pyval) (s : session_state) : session_state :=
  mkSession v (ss_authentication_status s) (ss_username s) (ss_logout s).

Definition set_ss_authentication_status (v : pyval) (s : session_state) : session_state :=
  mkSession (ss_name s) v (ss_username s) (ss_logout s).

Definition set_ss_username (v : pyval) (s : session_state) : session_state :=
  mkSession (ss_name s) (ss_authentication_status s) v (ss_logout s).

Definition set_ss_logout (v : pyval) (s : session_state) : session_state :=
  mkSession (ss_name s) (ss_authentication_status s) (ss_username s) v.

(** *** The monad of methods *)

Definition M (A : Type) : Type := world -> outcome A * world.

#[global] Instance M_ret : MRet M := fun A a w => (Ok a, w).

#[global] Instance M_bind : MBind M := fun A B f m w =>
  match m w with
  | (Ok a, w') => f a w'
  | (Raise e, w') => (Raise e, w')
  end.

Definition raise {A} (e : exn) : M A := fun w => (Raise e, w).

Definition lift {A} (o : outcome A) : M A := fun w => (o, w).

Definition gets {A} (f : world -> A) : M A := fun w => (Ok (f w), w).

Definition modify (f : world -> world) : M unit := fun w => (Ok tt, f w).

(** [try: body  except Exception as e: handler e] *)
Definition try_except {A} (body : M A) (handler : exn -> M A) : M A := fun w =>
  match body w with
  | (Ok a, w') => (Ok a, w')
  | (Raise e, w') => handler e w'
  end.

(** [if c: body], with nothing to do otherwise. *)
Definition when (c : bool) (body : M unit) : M unit :=
  if c then body else mret tt.

(** [print(e)] *)
Definition print (e : exn) : M unit := modify (with_stdout (fun l => (l ++ [e])%list)).

(** A message shown by a form. *)
Definition show (m : message) : M unit := modify (with_ui (fun l => (l ++ [m])%list)).

(** One draw from the random source. *)
Definition draw : M N := fun w => (Ok (entropy w), with_entropy N.succ w).

(** [d[k]] on a dictionary. *)
Definition getitem {A} (d : gmap string A) (k : string) : M A :=
  match d !! k with
  | Some v => mret v
  | None => raise (KeyError k)
  end.

(** [v > t] for a number [t]: booleans count as numbers, [None] and strings
    cannot be compared with a number. *)
Definition py_gt (v : pyval) (t : Z) : M bool :=
  match v with
  | PyNum z => mret (t <? z)
  | PyBool b => mret (t <? Z_of_bool b)
  | PyNone => raise (TypeError "'>' not supported between instances of 'NoneType' and 'float'")
  | PyStr _ => raise (TypeError "'>' not supported between instances of 'str' and 'float'")
  end.

(** [l.remove(x)]: the list without the first occurrence of [x], or
    nothing when [x] does not occur ([ValueError] in Python). *)
Fixpoint list_remove (x : string) (l : list string) : option (list string) :=
  match l with
  | [] => None
  | y :: l' =>
      if String.eqb y x then Some l' else option_map (cons y) (list_remove x l')
  end.

(** [location not in ['main', 'sidebar']] raises. *)
Definition check_location (location : string) : M unit :=
  if bool_decide (location ∈ ["main"; "sidebar"])
  then mret tt
  else raise (ValueError "Location must be one of 'main' or 'sidebar'").

(** ** The methods of [Authenticate] *)

(** The payload that [_token_encode] signs. *)
Definition token_payload (name username : pyval) (exp : Z) : gmap string pyval :=
  <["name" := name]> (<["username" := username]> {["exp_date" := PyNum exp]}).

Definition _token_encode : M jwt :=
  w ← gets (fun w => w);
  lift (jwt_encode
          (token_payload (ss_name (session w)) (ss_username (session w))
             (exp_date (self w)))
          (key (self w))).

(** [jwt.decode] raises on anything that is not a token string. *)
Definition _token_decode : M tokval :=
  try_except
    (w ← gets (fun w => w);
     match token (self w) with
     | TokStr t => d ← lift (jwt_decode t (key (self w))); mret (TokDict d)
     | _ => raise (InvalidTokenError "Invalid token type")
     end)
    (fun _ => mret TokFalse).

Definition _set_exp_date : M Z :=
  w ← gets (fun w => w);
  lift (datetime_plus_days (utcnow (time w)) (cookie_expiry_days (self w))).

Definition _check_pw : M bool :=
  w ← gets (fun w => w);
  u ← getitem (credentials (self w)) (username (self w));
  lift (checkpw (password (self w)) (user_password u)).

Definition _check_cookie : M unit :=
  w ← gets (fun w => w);
  modify (with_self (set_token
    match cookies w !! cookie_name (self w) with
    | Some c => TokStr (cookie_value c)
    | None => TokNone
    end));;
  t ← gets (fun w => token (self w));
  match t with
  | TokNone => mret tt
  | _ =>
      t' ← _token_decode;
      modify (with_self (set_token t'));;
      match t' with
      | TokFalse => mret tt
      | TokDict d =>
          logged_out ← gets (fun w => ss_logout (session w));
          when (negb (truthy logged_out))
            (e ← getitem d "exp_date";
             valid ← py_gt e (utcnow (time w));
             when valid
               (when (truthy (PyStr "name") && bool_decide ("username" ∈ dom d))
                  (n ← getitem d "name";
                   modify (with_session (set_ss_name n));;
                   u ← getitem d "username";
                   modify (with_session (set_ss_username u));;
                   modify (with_session (set_ss_authentication_status (PyBool true))))))
      | _ => raise (TypeError "object is not subscriptable")
      end
  end.

(** The result is [True], [False] or, where the Python function falls off
    its end, [None]. *)
Definition _check_credentials (inplace : bool) : M pyval :=
  w ← gets (fun w => w);
  if bool_decide (username (self w) ∈ dom (credentials (self w))) then
    try_except
      (ok ← _check_pw;
       if (ok : bool) then
         if inplace then
           w ← gets (fun w => w);
           u ← getitem (credentials (self w)) (username (self w));
           modify (with_session (set_ss_name (PyStr (user_name u))));;
           e ← _set_exp_date;
           modify (with_self (set_exp_date e));;
           t ← _token_encode;
           modify (with_self (set_token (TokStr t)));;
           expires_at ← lift (datetime_plus_days (now (time w))
                                (cookie_expiry_days (self w)));
           modify (with_cookies
             (cookie_manager_set (cookie_name (self w)) (mkCookie t expires_at)));;
           modify (with_session (set_ss_authentication_status (PyBool true)));;
           mret PyNone
         else mret (PyBool true)
       else
         if inplace then
           modify (with_session (set_ss_authentication_status (PyBool false)));;
           mret PyNone
         else mret (PyBool false))
      (fun e => print e;; mret PyNone)
  else
    if inplace then
      modify (with_session (set_ss_authentication_status (PyBool false)));;
      mret PyNone
    else mret (PyBool false).

(** The fields of the login form and whether its button was pressed. *)
Record login_form := mkLoginForm {
  lf_username : string;
  lf_password : string;
  lf_submit : bool;
}.

Definition login (form : login_form) (form_name location : string)
  : M (pyval * pyval * pyval) :=
  check_location location;;
  status ← gets (fun w => ss_authentication_status (session w));
  when (negb (truthy status))
    (_check_cookie;;
     status ← gets (fun w => ss_authentication_status (session w));
     when (negb (py_eq status (PyBool true)))
       (modify (with_self (set_username (lower (lf_username form))));;
        modify (with_session (set_ss_username (PyStr (lower (lf_username form)))));;
        modify (with_self (set_password (lf_password form)));;
        when (lf_submit form) (_check_credentials true;; mret tt);;
        status ← gets (fun w => ss_authentication_status (session w));
        when (py_eq status (PyBool false))
          (show (Error "Username/password is incorrect"));;
        status ← gets (fun w => ss_authentication_status (session w));
        when (py_eq status PyNone)
          (show (Warning "Please enter your username and password"))));;
  st ← gets session;
  mret (ss_name st, ss_authentication_status st, ss_username st).

(** [cookie_manager.delete] and the four assignments of a pressed button. *)
Definition logout_pressed : M unit :=
  w ← gets (fun w => w);
  jar ← lift (cookie_manager_delete (cookie_name (self w)) (cookies w));
  modify (with_cookies (fun _ => jar));;
  modify (with_session (set_ss_logout (PyBool true)));;
  modify (with_session (set_ss_name PyNone));;
  modify (with_session (set_ss_username PyNone));;
  modify (with_session (set_ss_authentication_status PyNone)).

Definition logout (pressed : bool) (button_name location : string) : M unit :=
  check_location location;;
  if String.eqb location "main" then when pressed logout_pressed
  else if String.eqb location "sidebar" then when pressed logout_pressed
  else mret tt.

Definition _update_password : M string :=
  ok ← _check_credentials false;
  if truthy ok then
    w ← gets (fun w => w);
    if 0 <? len (new_password (self w)) then
      if String.eqb (new_password (self w)) (new_password_repeat (self w)) then
        n ← draw;
        h ← lift (Hasher_generate n (new_password (self w)));
        u ← getitem (credentials (self w)) (username (self w));
        modify (with_self (set_credentials
          (<[username (self w) := mkUser (user_name u) h (user_email u)]>
             (credentials (self w)))));;
        mret "Password reset successfully"
      else mret "Passwords do not match"
    else mret "Please enter a new password"
  else mret "Username/password is incorrect".

(** The dictionary [reset_password_status]: how each status is shown. *)
Definition reset_password_status : gmap string (string -> message) :=
  list_to_map
    [("Password reset successfully", Success);
     ("Passwords do not match", Warning);
     ("Please enter a new password", Warning);
     ("Username/password is incorrect", Error)].

Record reset_form := mkResetForm {
  sf_username : string;
  sf_password : string;
  sf_new_password : string;
  sf_new_password_repeat : string;
  sf_submit : bool;
}.

Definition reset_password (form : reset_form) (form_name location : string) : M unit :=
  check_location location;;
  modify (with_self (set_username (lower (sf_username form))));;
  modify (with_self (set_password (sf_password form)));;
  modify (with_self (set_new_password (sf_new_password form)));;
  modify (with_self (set_new_password_repeat (sf_new_password_repeat form)));;
  when (sf_submit form)
    (status ← _update_password;
     display ← getitem reset_password_status status;
     show (display status)).

(** [self.preauthorized['emails']] *)
Definition preauthorized_emails : M (list string) :=
  p ← gets (fun w => preauthorized (self w));
  match p with
  | PreDict d => getitem d "emails"
  | PreList _ => raise (TypeError "list indices must be integers or slices, not str")
  | PreNone => raise (TypeError "'NoneType' object is not subscriptable")
  end.

(** [self.preauthorized['emails'].remove(email)]: the list is changed in
    place, so the dictionary holds the shortened list afterwards. *)
Definition preauthorized_emails_remove (email : string) : M unit :=
  emails ← preauthorized_emails;
  match list_remove email emails with
  | Some emails' =>
      p ← gets (fun w => preauthorized (self w));
      match p with
      | PreDict d =>
          modify (with_self (set_preauthorized (PreDict (<["emails" := emails']> d))))
      | _ => mret tt
      end
  | None => raise (ValueError "list.remove(x): x not in list")
  end.

Definition _register_credentials : M string :=
  w ← gets (fun w => w);
  if negb (len (new_username (self w)) =? 0) && negb (len (new_name (self w)) =? 0)
     && (0 <? len (new_password (self w))) then
    if negb (bool_decide (new_username (self w) ∈ dom (credentials (self w)))) then
      if String.eqb (new_password (self w)) (new_password_repeat (self w)) then
        n ← draw;
        h ← lift (Hasher_generate n (new_password (self w)));
        modify (with_self (set_credentials
          (<[new_username (self w) :=
               mkUser (new_name (self w)) h (registered_email (self w))]>
             (credentials (self w)))));;
        when (preauthorization (self w))
          (preauthorized_emails_remove (registered_email (self w)));;
        mret "User registered successfully"
      else mret "Passwords do not match"
    else mret "Username already taken"
  else mret "Please enter a new username, name, and password".

(** The dictionary [register_user_status]. *)
Definition register_user_status : gmap string (string -> message) :=
  list_to_map
    [("User registered successfully", Success);
     ("Passwords do not match", Warning);
     ("Username already taken", Warning);
     ("Please enter a new username, name, and password", Warning)].

Record register_form := mkRegisterForm {
  rf_email : string;
  rf_username : string;
  rf_name : string;
  rf_password : string;
  rf_password_repeat : string;
  rf_submit : bool;
}.

Definition register_user (form : register_form) (form_name location : string)
    (preauthorization_arg : bool) : M unit :=
  p ← gets (fun w => preauthorized (self w));
  if negb (preauth_truthy p) then
    raise (ValueError "Register argument must not be None")
  else
    check_location location;;
    modify (with_self (set_registered_email (rf_email form)));;
    modify (with_self (set_new_username (lower (rf_username form))));;
    modify (with_self (set_new_name (rf_name form)));;
    modify (with_self (set_new_password (rf_password form)));;
    modify (with_self (set_new_password_repeat (rf_password_repeat form)));;
    modify (with_self (set_preauthorization preauthorization_arg));;
    when (rf_submit form)
      (if preauthorization_arg then
         emails ← preauthorized_emails;
         if bool_decide (rf_email form ∈ emails) then
           status ← _register_credentials;
           display ← getitem register_user_status status;
           show (display status)
         else show (Error "User not authorized to register")
       else
         status ← _register_credentials;
         display ← getitem register_user_status status;
         show (display status)).

(** The result is the new password, or [None] for an unknown username. *)
Definition _set_password : M pyval :=
  w ← gets (fun w => w);
  if bool_decide (username (self w) ∈ dom (credentials (self w))) then
    r ← draw;
    modify (with_self (set_random_password (generate_random_pw r)));;
    n ← draw;
    h ← lift (Hasher_generate n (generate_random_pw r));
    u ← getitem (credentials (self w)) (username (self w));
    modify (with_self (set_credentials
      (<[username (self w) := mkUser (user_name u) h (user_email u)]>
         (credentials (self w)))));;
    mret (PyStr (generate_random_pw r))
  else mret PyNone.

Record forgot_form := mkForgotForm {
  ff_username : string;
  ff_submit : bool;
}.

Definition forgot_password (form : forgot_form) (form_name location : string)
  : M (pyval * pyval * pyval) :=
  check_location location;;
  modify (with_self (set_username (lower (ff_username form))));;
  if ff_submit form then
    r ← _set_password;
    if truthy r then
      w ← gets (fun w => w);
      u ← getitem (credentials (self w)) (username (self w));
      mret (PyStr (username (self w)), PyStr (user_email u),
            PyStr (random_password (self w)))
    else
      show (Error "Username not found");;
      mret (PyNone, PyNone, PyNone)
  else mret (PyNone, PyNone, PyNone).

(** *** Construction *)

(** The dictionary comprehension of [__init__]: the items are visited in
    the order of the dictionary, and a later key that lowers to an earlier
    one replaces its entry. *)
Definition lower_keys (items : list (string * user)) : gmap string user :=
  foldl (fun acc kv => <[lower kv.1 := kv.2]> acc) ∅ items.

(** [if k not in st.session_state: st.session_state[k] = None] *)
Definition session_default (raw : gmap string pyval) (k : string) : pyval :=
  default PyNone (raw !! k).

(** [Authenticate(credentials, cookie_name, key, cookie_expiry_days,
    preauthorized)], in a session whose state is [raw] and a browser whose
    cookies are [jar]; [items] are the items of
    [credentials['usernames']]. *)
Definition __init__ (items : list (string * user)) (cookie_name key : string)
    (cookie_expiry_days : Z) (preauthorized : preauth)
    (raw : gmap string pyval) (jar : gmap string cookie) (seed : N) (clk : clock)
  : world :=
  mkWorld
    (mkAuthenticate (lower_keys items) cookie_name key cookie_expiry_days
       preauthorized "" "" TokNone 0 "" "" "" "" "" true "")
    (mkSession (session_default raw "name")
       (session_default raw "authentication_status")
       (session_default raw "username") (session_default raw "logout"))
    jar [] [] seed clk.

End Authenticate.

Arguments tokval {L}.
Arguments cookie {L}.
Arguments Authenticate {L}.
Arguments world {L}.

(** ** What the properties speak about *)


Definition random_pw_nonempty {L : Libraries} : Prop :=
  forall n : N, generate_random_pw n <> "".

(** A hash made by [Hasher] verifies the password it was made from. *)
Definition hash_verifies {L : Libraries} : Prop :=
  forall (n : N) (p h : string),
    Hasher_generate n p = Ok h -> checkpw p h = Ok true.


(** The stored hash of [self.username] matches [self.password]. *)
Definition credentials_verify {L : Libraries} (w : world) : Prop :=
  exists r, credentials (self w) !! username (self w) = Some r
            /\ checkpw (password (self w)) (user_password r) = Ok true.

(** Case-normalized keys. *)
Definition lowercase_keys (m : gmap string user) : Prop :=
  forall k, k ∈ dom m -> lower k = k.

Definition valid_location (location : string) : Prop :=
  location = "main" \/ location = "sidebar".

(** What a login at [w] computes between the password check and the
    status: the expiry timestamp [exp] of the token, the token [t] for the
    name and the username, and the expiry date [ea] of the cookie.  Each of
    the three computations can raise. *)
Definition can_issue {L : Libraries} (w : world) (name username : pyval)
    (exp : Z) (t : jwt) (ea : Z) : Prop :=
  datetime_plus_days (utcnow (time w)) (cookie_expiry_days (self w)) = Ok exp
  /\ jwt_encode (token_payload name username exp) (key (self w)) = Ok t
  /\ datetime_plus_days (now (time w)) (cookie_expiry_days (self w)) = Ok ea.

(** The world after a successful login: the name of the user in session
    state, the expiry date and the token in the attributes, the token in the
    cookie, and the status. *)
Definition logged_in {L : Libraries} (w : world) (r : user) (exp : Z) (t : jwt)
    (ea : Z) : world :=
  with_session (set_ss_authentication_status (PyBool true))
    (with_cookies (cookie_manager_set (cookie_name (self w)) (mkCookie t ea))
       (with_self (set_token (TokStr t))
          (with_self (set_exp_date exp)
             (with_session (set_ss_name (PyStr (user_name r))) w)))).

(** [_check_cookie] returns normally with [s] as session state. *)
Definition cookie_check_gives {L : Libraries} (w : world) (s : session_state)
  : Prop :=
  exists w', _check_cookie w = (Ok tt, w') /\ session w' = s.

(** The method [m] leaves the component [f] of the world as it is, however
    it ends. *)
Definition preserves {L : Libraries} {A B : Type} (f : world -> B) (m : M A)
  : Prop :=
  forall w, f (m w).2 = f w.

(** The logout flag of the session. *)
Definition logout_flag {L : Libraries} (w : world) : pyval := ss_logout (session w).

(** The store after a method is the store before it, or the store before
    it with the entry of [k] written. *)
Definition wrote_at_most (k : string) (m m' : gmap string user) : Prop :=
  m' = m \/ exists r, m' = <[k := r]> m.

(** The store after a method is the store before it, or the store before
    it with the entry that [k] had replaced. *)
Definition overwrote_at_most (k : string) (m m' : gmap string user) : Prop :=
  m' = m \/ exists r r', m !! k = Some r /\ m' = <[k := r']> m.

(** What the login form shows under its fields for a status: the error
    when the status equals [False], the warning when it equals [None]. *)
Definition login_messages (st : pyval) : list message :=
  ((if py_eq st (PyBool false)
    then [Error "Username/password is incorrect"] else [])
   ++ (if py_eq st PyNone
       then [Warning "Please enter your username and password"] else []))%list.

(** Every message that the reset form, and the registration form, can
    show. *)
Definition reset_messages : list message :=
  [Success "Password reset successfully"; Warning "Passwords do not match";
   Warning "Please enter a new password"; Error "Username/password is incorrect"].

Definition register_messages : list message :=
  [Success "User registered successfully"; Warning "Passwords do not match";
   Warning "Username already taken";
   Warning "Please enter a new username, name, and password";
   Error "User not authorized to register"].

(** ** Idealised libraries

    An implementation of [Libraries] to run the methods on: a hash is the
    password behind the prefix of bcrypt, a token is its payload next to the
    key that signed it. *)
Module Ideal.

(** bcrypt refuses a password of more than 72 bytes. *)
Definition too_long (p : string) : bool := (72 <? String.length p)%nat.

Definition hash (n : N) (p : string) : outcome string :=
  if too_long p
  then Raise (ValueError "password cannot be longer than 72 bytes, truncate manually if necessary (e.g. my_password[:72])")
  else Ok ("$2b$" ++ p).

Definition check (p h : string) : outcome bool :=
  if too_long p
  then Raise (ValueError "password cannot be longer than 72 bytes, truncate manually if necessary (e.g. my_password[:72])")
  else if String.prefix "$2b$" h then Ok (String.eqb h ("$2b$" ++ p))
  else Raise (ValueError "Invalid salt").

(** PyJWT refuses a key that looks like a public key as an HMAC secret. *)
Definition encode (p : gmap string pyval) (k : string)
  : outcome (gmap string pyval * string) :=
  if String.prefix "ssh-rsa" k
  then Raise (InvalidKeyError "The specified key is an asymmetric key or x509 certificate and should not be used as an HMAC secret.")
  else Ok (p, k).

Definition decode (t : gmap string pyval * string) (k : string)
  : outcome (gmap string pyval) :=
  if String.eqb t.2 k then Ok t.1
  else Raise (InvalidTokenError "Signature verification failed").

Definition random_pw (n : N) : string :=
  String (ascii_of_N (97 + n mod 26)) "q7Xw2m".

#[export] Instance libraries : Libraries := {|
  jwt := gmap string pyval * string;
  jwt_encode := encode;
  jwt_decode := decode;
  checkpw := check;
  Hasher_generate := hash;
  generate_random_pw := random_pw;
|}.

(** A small application: two users, the second with a password that was
    stored without hashing; one preauthorized email. *)
Definition items : list (string * user) :=
  [("JSmith", mkUser "John Smith" "$2b$abc" "jsmith@gmail.com");
   ("rbriggs", mkUser "Rebecca Briggs" "def" "rbriggs@gmail.com")].

Definition app : world :=
  __init__ items "some_cookie_name" "some_signature_key" 30
    (PreDict {["emails" := ["melsby@gmail.com"]]}) ∅ ∅ 0%N (mkClock 1000 4600).


(** The token of John Smith's login at time 1000. *)
Definition jsmith_token : jwt :=
  (token_payload (PyStr "John Smith") (PyStr "jsmith") 2593000,
   "some_signature_key").

(** A password of 73 bytes. *)
Definition long_password : string :=
  "0123456789012345678901234567890123456789012345678901234567890123456789012".


(** The attributes and the session entry that the login form assigns. *)
Definition typed (u p : string) (w : world) : world :=
  with_self (set_password p)
    (with_session (set_ss_username (PyStr u)) (with_self (set_username u) w)).

Definition jsmith : user := mkUser "John Smith" "$2b$abc" "jsmith@gmail.com".

Definition rbriggs : user := mkUser "Rebecca Briggs" "def" "rbriggs@gmail.com".

(** John Smith has logged in at time 1000, with a cookie for 30 days. *)
Definition signed_in : world := (_check_credentials true (typed "jsmith" "abc" app)).2.

(** A later visit with the same browser: a new session, a new object. *)
Definition revisit (t : Z) : world :=
  __init__ items "some_cookie_name" "some_signature_key" 30
    (PreDict {["emails" := ["melsby@gmail.com"]]}) ∅ (cookies signed_in) 7%N
    (mkClock t (t + 3600)).

(** The same visit by an application configured with another key. *)
Definition revisit_other_key (t : Z) : world :=
  __init__ items "some_cookie_name" "another_key" 30 PreNone ∅ (cookies signed_in)
    7%N (mkClock t (t + 3600)).


(** What the registration form assigns. *)
Definition registering (email u name p p2 : string) (pre : bool) (w : world) : world :=
  with_self (set_preauthorization pre)
    (with_self (set_new_password_repeat p2)
       (with_self (set_new_password p)
          (with_self (set_new_name name)
             (with_self (set_new_username u)
                (with_self (set_registered_email email) w))))).

(** What the reset form assigns. *)
Definition resetting (u p new new2 : string) (w : world) : world :=
  with_self (set_new_password_repeat new2)
    (with_self (set_new_password new)
       (with_self (set_password p) (with_self (set_username u) w))).

(** The browser has dropped its cookies: the user has cleared them, or the
    cookie has expired. *)
Definition cookie_dropped (w : world) : world := with_cookies (fun _ => ∅) w.





(** A registration under a username that is taken, with no password. *)
Definition taken_no_password : world :=
  registering "new@mail.org" "jsmith" "John" "" "" false app.

(** The application of [app] with another [preauthorized] argument. *)
Definition app_with (pre : preauth) : world :=
  __init__ items "some_cookie_name" "some_signature_key" 30 pre ∅ ∅ 0%N
    (mkClock 1000 4600).

(** A browser that presents a token with the payload [p], signed with the
    key of the application. *)
Definition presented (p : gmap string pyval) : cookie :=
  mkCookie (p, "some_signature_key") 0.

Definition presenting (p : gmap string pyval) : world :=
  with_cookies (insert "some_cookie_name" (presented p)) app.

Definition melsby_form : register_form :=
  mkRegisterForm "melsby@gmail.com" "MElsby" "Mel Elsby" "s3cret" "s3cret" true.

End Ideal.

(** * Properties *)

Section Properties.

Context {L : Libraries}.

Implicit Types (w : world) (r : user) (e : exn).

(** Running a method: the operations of the monad are unfolded, the
    methods themselves are unfolded by the lemma that runs them. *)
Ltac run :=
  cbv [mbind M_bind mret M_ret gets modify raise lift when print show draw
       try_except getitem].

Ltac known_user H :=
  rewrite bool_decide_eq_true_2 by (apply elem_of_dom; rewrite H; eauto).

Ltac unknown_user H :=
  rewrite bool_decide_eq_false_2 by (rewrite elem_of_dom, H; apply is_Some_None).

(** ** Credential verification *)


Lemma check_pw_run w r :
  credentials (self w) !! username (self w) = Some r ->
  _check_pw w = (checkpw (password (self w)) (user_password r), w).
Proof. intros Hr. unfold _check_pw. run. now rewrite Hr. Qed.

(** With a matching password and [inplace] false, the result is [True]. *)
Lemma check_credentials_returns_True w r :
  credentials (self w) !! username (self w) = Some r ->
  checkpw (password (self w)) (user_password r) = Ok true ->
  _check_credentials false w = (Ok (PyBool true), w).
Proof.
  intros Hr Hc. unfold _check_credentials. run. known_user Hr.
  now rewrite (check_pw_run w r Hr), Hc.
Qed.

(** With a matching password and [inplace] true, the session is signed in
    when the expiry date, the token and the expiry of the cookie are
    computed. *)
Lemma check_credentials_logs_in w r (exp : Z) (t : jwt) (ea : Z) :
  credentials (self w) !! username (self w) = Some r ->
  checkpw (password (self w)) (user_password r) = Ok true ->
  can_issue w (PyStr (user_name r)) (ss_username (session w)) exp t ea ->
  _check_credentials true w = (Ok PyNone, logged_in w r exp t ea).
Proof.
  intros Hr Hc (Hexp & Henc & Hea). unfold _check_credentials. run. known_user Hr.
  rewrite (check_pw_run w r Hr), Hc.
  unfold _set_exp_date, _token_encode. run. simpl.
  now rewrite Hr, Hexp, Henc, Hea.
Qed.


(** When the expiry date cannot be computed, the exception is printed; the
    status is not set and no cookie is stored, though the name is already
    written. *)
Lemma check_credentials_no_expiry w r e :
  credentials (self w) !! username (self w) = Some r ->
  checkpw (password (self w)) (user_password r) = Ok true ->
  datetime_plus_days (utcnow (time w)) (cookie_expiry_days (self w)) = Raise e ->
  _check_credentials true w
  = (Ok PyNone,
     with_stdout (fun l => (l ++ [e])%list)
       (with_session (set_ss_name (PyStr (user_name r))) w)).
Proof.
  intros Hr Hc Hexp. unfold _check_credentials. run. known_user Hr.
  rewrite (check_pw_run w r Hr), Hc.
  unfold _set_exp_date, _token_encode. run. simpl.
  now rewrite Hr, Hexp.
Qed.

Lemma check_credentials_mismatch w r inplace :
  credentials (self w) !! username (self w) = Some r ->
  checkpw (password (self w)) (user_password r) = Ok false ->
  _check_credentials inplace w
  = if inplace
    then (Ok PyNone, with_session (set_ss_authentication_status (PyBool false)) w)
    else (Ok (PyBool false), w).
Proof.
  intros Hr Hc. unfold _check_credentials. run. known_user Hr.
  rewrite (check_pw_run w r Hr), Hc. now destruct inplace.
Qed.

Lemma check_credentials_unknown w inplace :
  credentials (self w) !! username (self w) = None ->
  _check_credentials inplace w
  = if inplace
    then (Ok PyNone, with_session (set_ss_authentication_status (PyBool false)) w)
    else (Ok (PyBool false), w).
Proof.
  intros Hr. unfold _check_credentials. run. unknown_user Hr. now destruct inplace.
Qed.

Lemma check_credentials_raise w r e inplace :
  credentials (self w) !! username (self w) = Some r ->
  checkpw (password (self w)) (user_password r) = Raise e ->
  _check_credentials inplace w
  = (Ok PyNone, with_stdout (fun l => (l ++ [e])%list) w).
Proof.
  intros Hr Hc. unfold _check_credentials. run. known_user Hr.
  now rewrite (check_pw_run w r Hr), Hc.
Qed.


(** C8. When the password check raises inside [_check_credentials], the
    call still returns normally: its result is [None], which is not [True],
    the exception is printed, and session state, cookies and attributes are
    what they were, so [authentication_status] is not set. *)
Theorem check_credentials_swallows w r e inplace :
  credentials (self w) !! username (self w) = Some r ->
  checkpw (password (self w)) (user_password r) = Raise e ->
  exists w',
    _check_credentials inplace w = (Ok PyNone, w')
    /\ py_eq PyNone (PyBool true) = false
    /\ session w' = session w
    /\ cookies w' = cookies w
    /\ self w' = self w
    /\ stdout w' = (stdout w ++ [e])%list.
Proof.
  intros Hr Hc. eexists. split.
  - apply (check_credentials_raise w r e inplace Hr Hc).
  - repeat split.
Qed.


(** ** The reauthentication cookie *)




Lemma check_cookie_absent w :
  cookies w !! cookie_name (self w) = None ->
  cookie_check_gives w (session w).
Proof.
  intros Hc. eexists. unfold _check_cookie. run. rewrite Hc. simpl.
  split; reflexivity.
Qed.




Lemma check_cookie_keeps_logout w :
  ss_logout (session (_check_cookie w).2) = ss_logout (session w).
Proof.
  unfold _check_cookie, _token_decode, py_gt. run.
  destruct (cookies w !! cookie_name (self w)) as [c|]; simpl; [|reflexivity].
  destruct (jwt_decode (cookie_value c) (key (self w))) as [d|e]; simpl;
    [|reflexivity].
  destruct (truthy (ss_logout (session w))); simpl; [reflexivity|].
  destruct (d !! "exp_date") as [v|]; simpl; [|reflexivity].
  destruct v; simpl; try reflexivity;
    (destruct (_ <? _); simpl; [|reflexivity];
     destruct (bool_decide _); simpl; [|reflexivity];
     destruct (d !! "name"); simpl; [|reflexivity];
     destruct (d !! "username"); reflexivity).
Qed.

(** X11.  The cookie check changes session state only for a cookie that decodes
    under the configured key and whose expiry date is in the future, in a
    session whose logout flag is not set. *)
Lemma check_cookie_accepts_only w :
  session (_check_cookie w).2 <> session w ->
  exists c d v,
    cookies w !! cookie_name (self w) = Some c
    /\ jwt_decode (cookie_value c) (key (self w)) = Ok d
    /\ truthy (ss_logout (session w)) = false
    /\ d !! "exp_date" = Some v
    /\ (py_gt v (utcnow (time w)) w).1 = Ok true.
Proof.
  unfold _check_cookie, _token_decode. run.
  destruct (cookies w !! cookie_name (self w)) as [c|]; simpl; [|congruence].
  destruct (jwt_decode (cookie_value c) (key (self w))) as [d|e] eqn:Hd; simpl;
    [|congruence].
  destruct (truthy (ss_logout (session w))) eqn:Hl; simpl; [congruence|].
  destruct (d !! "exp_date") as [v|] eqn:Hv; simpl; [|congruence].
  intros H. exists c, d, v. repeat split; try assumption.
  unfold py_gt in *. run.
  destruct v; simpl in *; try congruence;
    (destruct (_ <? _); simpl in *; [reflexivity | congruence]).
Qed.



(** ** What a method leaves alone

    [preserves f m] follows the structure of [m]; the only leaves that
    write are [modify] and [draw]. *)
Section Preserves.

Context {B : Type} (f : world -> B).

Lemma preserves_ret {A} (a : A) : preserves f (mret a).
Proof. intros w. reflexivity. Qed.

Lemma preserves_raise {A} e : preserves f (raise (A:=A) e).
Proof. intros w. reflexivity. Qed.

Lemma preserves_lift {A} (o : outcome A) : preserves f (lift o).
Proof. intros w. reflexivity. Qed.

Lemma preserves_gets {A} (g : world -> A) : preserves f (gets g).
Proof. intros w. reflexivity. Qed.

Lemma preserves_modify (g : world -> world) :
  (forall w, f (g w) = f w) -> preserves f (modify g).
Proof. intros Hg w. apply Hg. Qed.

Lemma preserves_draw :
  (forall w, f (with_entropy N.succ w) = f w) -> preserves f draw.
Proof. intros Hg w. apply Hg. Qed.

Lemma preserves_bind {A C} (m : M A) (k : A -> M C) :
  preserves f m -> (forall a, preserves f (k a)) -> preserves f (m ≫= k).
Proof.
  intros Hm Hk w. specialize (Hm w). unfold mbind, M_bind.
  destruct (m w) as [[a|e] w1]; simpl in *.
  - now rewrite Hk.
  - assumption.
Qed.

Lemma preserves_try_except {A} (m : M A) (h : exn -> M A) :
  preserves f m -> (forall e, preserves f (h e)) -> preserves f (try_except m h).
Proof.
  intros Hm Hh w. specialize (Hm w). unfold try_except.
  destruct (m w) as [[a|e] w1]; simpl in *.
  - assumption.
  - now rewrite Hh.
Qed.

Lemma preserves_when (c : bool) (m : M unit) :
  preserves f m -> preserves f (when c m).
Proof. intros Hm. destruct c; [assumption | apply preserves_ret]. Qed.

Lemma preserves_getitem {A} (d : gmap string A) (k : string) :
  preserves f (getitem d k).
Proof.
  unfold getitem. destruct (d !! k); [apply preserves_ret | apply preserves_raise].
Qed.

End Preserves.

Ltac preserve_step :=
  lazymatch goal with
  | |- preserves _ (mbind _ _) => apply preserves_bind; [|intros ?]
  | |- preserves _ (mret _) => apply preserves_ret
  | |- preserves _ (raise _) => apply preserves_raise
  | |- preserves _ (lift _) => apply preserves_lift
  | |- preserves _ (gets _) => apply preserves_gets
  | |- preserves _ (getitem _ _) => apply preserves_getitem
  | |- preserves _ (modify _) => apply preserves_modify; intros ?; reflexivity
  | |- preserves _ draw => apply preserves_draw; intros ?; reflexivity
  | |- preserves _ (try_except _ _) => apply preserves_try_except; [|intros ?]
  | |- preserves _ (when false _) => apply preserves_ret
  | |- preserves _ (when _ _) => apply preserves_when
  | |- preserves _ (if ?b then _ else _) => destruct b
  | |- preserves _ (match ?x with _ => _ end) => destruct x
  end.

Ltac preserve :=
  unfold login, logout, logout_pressed, reset_password, register_user,
    forgot_password, _update_password, _register_credentials, _set_password,
    _check_credentials, _check_cookie, _check_pw, _token_decode, _token_encode,
    _set_exp_date, preauthorized_emails_remove, preauthorized_emails,
    check_location, py_gt, print, show;
  repeat preserve_step.


Lemma check_credentials_keeps_logout inplace :
  preserves logout_flag (_check_credentials inplace).
Proof. preserve. Qed.





(** ** Logging out and in *)

Lemma location_checked location w :
  valid_location location -> check_location location w = (Ok tt, w).
Proof. intros [-> | ->]; reflexivity. Qed.

Lemma logout_run w button_name location c :
  valid_location location ->
  cookie_name (self w) <> "" ->
  cookies w !! cookie_name (self w) = Some c ->
  logout true button_name location w
  = (Ok tt,
     with_session (set_ss_authentication_status PyNone)
       (with_session (set_ss_username PyNone)
          (with_session (set_ss_name PyNone)
             (with_session (set_ss_logout (PyBool true))
                (with_cookies (fun _ => delete (cookie_name (self w)) (cookies w))
                   w))))).
Proof.
  intros Hloc Hn Hc. apply String.eqb_neq in Hn.
  unfold logout, logout_pressed, cookie_manager_delete. run.
  rewrite (location_checked _ _ Hloc).
  destruct Hloc as [-> | ->]; simpl; now rewrite Hn, Hc.
Qed.

(** Without the cookie, [del] raises before anything is written. *)
Lemma logout_no_cookie w button_name location :
  valid_location location ->
  cookie_name (self w) <> "" ->
  cookies w !! cookie_name (self w) = None ->
  logout true button_name location w = (Raise (KeyError (cookie_name (self w))), w).
Proof.
  intros Hloc Hn Hc. apply String.eqb_neq in Hn.
  unfold logout, logout_pressed, cookie_manager_delete. run.
  rewrite (location_checked _ _ Hloc).
  destruct Hloc as [-> | ->]; simpl; now rewrite Hn, Hc.
Qed.

Lemma truthy_false_not_True v : truthy v = false -> py_eq v (PyBool true) = false.
Proof.
  destruct v as [|b|z|s]; simpl; intros H; try reflexivity.
  - now rewrite H.
  - apply Z.eqb_neq. apply negb_false_iff, Z.eqb_eq in H. lia.
Qed.

Lemma check_cookie_keeps_credentials :
  preserves (fun w => credentials (self w)) _check_cookie.
Proof. preserve. Qed.




(** ** Registration *)

Lemma len_nonempty s : s <> "" -> 0 < len s.
Proof. destruct s; [congruence | unfold len; simpl; lia]. Qed.

Lemma len_empty s : len s = 0 <-> s = "".
Proof. destruct s; unfold len; simpl; split; (congruence || lia). Qed.

Lemma fields_entered w :
  new_username (self w) <> "" -> new_name (self w) <> "" ->
  new_password (self w) <> "" ->
  negb (len (new_username (self w)) =? 0) && negb (len (new_name (self w)) =? 0)
  && (0 <? len (new_password (self w))) = true.
Proof.
  intros Hu Hn Hp. apply len_nonempty in Hu, Hn, Hp.
  rewrite !andb_true_iff, !negb_true_iff, !Z.eqb_neq, Z.ltb_lt. lia.
Qed.

(** C4, amended.  When the new username, the name and the password are all
    entered and the new username is a key of the credentials map,
    [_register_credentials] returns 'Username already taken', whether or not
    the password equals its confirmation, and changes nothing. *)
Theorem register_taken_username w :
  new_username (self w) <> "" ->
  new_name (self w) <> "" ->
  new_password (self w) <> "" ->
  new_username (self w) ∈ dom (credentials (self w)) ->
  _register_credentials w = (Ok "Username already taken", w).
Proof.
  intros Hu Hn Hp Hin. unfold _register_credentials. run.
  rewrite (fields_entered w Hu Hn Hp).
  now rewrite (bool_decide_eq_true_2 _ Hin).
Qed.

(** With a password that differs from its confirmation, the status is one
    of the three failures and the world is untouched. *)
Lemma register_credentials_mismatch w :
  new_password (self w) <> new_password_repeat (self w) ->
  exists status,
    _register_credentials w = (Ok status, w)
    /\ status ∈ ["Passwords do not match"; "Username already taken";
                  "Please enter a new username, name, and password"].
Proof.
  intros Hne. apply String.eqb_neq in Hne. unfold _register_credentials. run.
  destruct (_ && _); [|eexists; split; [reflexivity | set_solver]].
  destruct (bool_decide _); simpl; [eexists; split; [reflexivity | set_solver]|].
  rewrite Hne. eexists; split; [reflexivity | set_solver].
Qed.

(** What the registration form keeps of the store when the two passwords
    differ. *)
Lemma register_user_mismatch w form form_name location pre :
  rf_password form <> rf_password_repeat form ->
  let w' := (register_user form form_name location pre w).2 in
  credentials (self w') = credentials (self w)
  /\ preauthorized (self w') = preauthorized (self w).
Proof.
  intros Hne. unfold register_user, check_location, preauthorized_emails. run.
  destruct (preauth_truthy _); simpl; [|auto].
  destruct (bool_decide (location ∈ _)); simpl; [|auto].
  destruct (rf_submit form); simpl; [|auto].
  assert (Hreg : forall w2,
             new_password (self w2) = rf_password form ->
             new_password_repeat (self w2) = rf_password_repeat form ->
             exists status, _register_credentials w2 = (Ok status, w2)).
  { intros w2 H1 H2.
    destruct (register_credentials_mismatch w2) as (status & Hrun & _); eauto.
    now rewrite H1, H2. }
  destruct pre; simpl.
  - destruct (preauthorized (self w)) as [|l|d] eqn:Hp; simpl; rewrite ?Hp; auto.
    destruct (d !! "emails") as [emails|]; simpl; rewrite ?Hp; auto.
    destruct (bool_decide _); simpl; rewrite ?Hp; auto.
    match goal with
    | |- context [_register_credentials ?x] =>
        destruct (Hreg x) as (status & ->); [reflexivity .. |]
    end.
    destruct (register_user_status !! status); simpl; rewrite ?Hp; auto.
  - match goal with
    | |- context [_register_credentials ?x] =>
        destruct (Hreg x) as (status & ->); [reflexivity .. |]
    end.
    destruct (register_user_status !! status); simpl; auto.
Qed.

(** C5.  When the password and its confirmation differ,
    [_register_credentials] returns a status of failure and leaves the
    credentials map and the preauthorized emails exactly as they were; so
    does the registration form as a whole. *)
Theorem register_mismatch_keeps_store :
  (forall w,
      new_password (self w) <> new_password_repeat (self w) ->
      exists status w',
        _register_credentials w = (Ok status, w')
        /\ status <> "User registered successfully"
        /\ credentials (self w') = credentials (self w)
        /\ preauthorized (self w') = preauthorized (self w))
  /\ (forall w form form_name location pre,
      rf_password form <> rf_password_repeat form ->
      let w' := (register_user form form_name location pre w).2 in
      credentials (self w') = credentials (self w)
      /\ preauthorized (self w') = preauthorized (self w)).
Proof.
  split.
  - intros w Hne.
    destruct (register_credentials_mismatch w Hne) as (status & Hrun & Hst).
    exists status, w. repeat split; [exact Hrun|].
    rewrite !elem_of_cons, elem_of_nil in Hst.
    intros ->. destruct Hst as [?|[?|[?|[]]]]; discriminate.
  - apply register_user_mismatch.
Qed.

(** C10.  When the [preauthorized] argument of the constructor was [None]
    or empty, [register_user] raises [ValueError], also with
    [preauthorization] false and whatever the form holds; nothing has been
    done by then: the credentials map and the rest of the world are as
    before. *)
Theorem register_user_requires_preauthorized w form form_name location pre :
  preauthorized (self w) = PreNone
  \/ preauthorized (self w) = PreList []
  \/ preauthorized (self w) = PreDict ∅ ->
  register_user form form_name location pre w
  = (Raise (ValueError "Register argument must not be None"), w).
Proof.
  intros H. unfold register_user. run.
  destruct H as [-> | [-> | ->]]; reflexivity.
Qed.

(** ** Password reset *)

Lemma update_password_verified w r :
  credentials (self w) !! username (self w) = Some r ->
  checkpw (password (self w)) (user_password r) = Ok true ->
  _update_password w
  = if 0 <? len (new_password (self w)) then
      if String.eqb (new_password (self w)) (new_password_repeat (self w)) then
        match Hasher_generate (entropy w) (new_password (self w)) with
        | Ok h =>
            (Ok "Password reset successfully",
             with_self (set_credentials
               (<[username (self w) := mkUser (user_name r) h (user_email r)]>
                  (credentials (self w))))
               (with_entropy N.succ w))
        | Raise e => (Raise e, with_entropy N.succ w)
        end
      else (Ok "Passwords do not match", w)
    else (Ok "Please enter a new password", w).
Proof.
  intros Hr Hc. unfold _update_password. run.
  rewrite (check_credentials_returns_True w r Hr Hc). simpl.
  destruct (0 <? len _); [|reflexivity].
  destruct (String.eqb _ _); [|reflexivity].
  destruct (Hasher_generate _ _); [|reflexivity].
  now rewrite Hr.
Qed.

Lemma update_password_refused w :
  ~ credentials_verify w ->
  exists w',
    _update_password w = (Ok "Username/password is incorrect", w')
    /\ credentials (self w') = credentials (self w).
Proof.
  intros Hv. unfold _update_password. run.
  destruct (credentials (self w) !! username (self w)) as [r|] eqn:Hr.
  - destruct (checkpw (password (self w)) (user_password r)) as [[|]|e] eqn:Hc.
    + destruct Hv. now exists r.
    + rewrite (check_credentials_mismatch w r false Hr Hc). simpl. eauto.
    + rewrite (check_credentials_raise w r e false Hr Hc). simpl. eauto.
  - rewrite (check_credentials_unknown w false Hr). simpl. eauto.
Qed.

(** Whether the current credentials verify can be decided. *)
Lemma classic_verify w : credentials_verify w \/ ~ credentials_verify w.
Proof.
  unfold credentials_verify.
  destruct (credentials (self w) !! username (self w)) as [r|];
    [|right; intros (r & H & _); discriminate].
  destruct (checkpw (password (self w)) (user_password r)) as [[|]|e] eqn:Hc.
  - left. eauto.
  - right. intros (r' & H & Hc'). congruence.
  - right. intros (r' & H & Hc'). congruence.
Qed.

(** C6, amended.  [_update_password] overwrites the stored hash exactly
    when the current credentials verify, the new password is not empty, it
    equals its confirmation and [Hasher] returns a hash for it: then, and
    only then, the status is 'Password reset successfully', and the entry of
    the username holds that hash, with the name and the email it had.
    Otherwise the credentials map is as before: the status tells the first
    of the three conditions that failed, and when the three hold but
    [Hasher] raises, the exception leaves the method and there is no
    status. *)
Theorem update_password_iff w :
  let u := username (self w) in
  let status := (_update_password w).1 in
  let w' := (_update_password w).2 in
  (status = Ok "Password reset successfully"
   <-> credentials_verify w /\ new_password (self w) <> ""
       /\ new_password (self w) = new_password_repeat (self w)
       /\ exists h, Hasher_generate (entropy w) (new_password (self w)) = Ok h)
  /\ (status = Ok "Password reset successfully" ->
      exists r h,
        credentials (self w) !! u = Some r
        /\ Hasher_generate (entropy w) (new_password (self w)) = Ok h
        /\ credentials (self w')
           = <[u := mkUser (user_name r) h (user_email r)]> (credentials (self w)))
  /\ (status <> Ok "Password reset successfully" ->
      credentials (self w') = credentials (self w))
  /\ (~ credentials_verify w -> status = Ok "Username/password is incorrect")
  /\ (credentials_verify w -> new_password (self w) = "" ->
      status = Ok "Please enter a new password")
  /\ (credentials_verify w -> new_password (self w) <> "" ->
      new_password (self w) <> new_password_repeat (self w) ->
      status = Ok "Passwords do not match")
  /\ (forall e,
      credentials_verify w -> new_password (self w) <> "" ->
      new_password (self w) = new_password_repeat (self w) ->
      Hasher_generate (entropy w) (new_password (self w)) = Raise e ->
      status = Raise e).
Proof.
  intros u status w'. subst u status w'.
  destruct (classic_verify w) as [Hv | Hv].
  - destruct Hv as (r & Hr & Hc).
    assert (Hv : credentials_verify w) by now exists r.
    rewrite (update_password_verified w r Hr Hc).
    destruct (0 <? len (new_password (self w))) eqn:Hlen.
    + apply Z.ltb_lt in Hlen.
      assert (Hne : new_password (self w) <> "")
        by (intros E; apply len_empty in E; lia).
      destruct (String.eqb_spec (new_password (self w))
                  (new_password_repeat (self w))) as [Heq | Heq]; simpl.
      * destruct (Hasher_generate (entropy w) (new_password (self w)))
          as [h|e] eqn:Hh; simpl.
        -- repeat split; try congruence; try tauto; eauto.
        -- repeat split; try congruence; try tauto; try discriminate.
           intros (_ & _ & _ & h & Hok). discriminate.
      * repeat split; try congruence; try tauto; try discriminate.
    + apply Z.ltb_ge in Hlen.
      assert (He : new_password (self w) = "").
      { apply len_empty. pose proof (len_nonempty (new_password (self w))).
        destruct (String.eqb_spec (new_password (self w)) "") as [E|E];
          [now rewrite E | specialize (H E); lia]. }
      simpl. repeat split; try congruence; try tauto; try discriminate.
  - destruct (update_password_refused w Hv) as (w1 & -> & Hcr). simpl.
    repeat split; try congruence; try tauto; try discriminate.
Qed.

(** ** Forgotten password *)

Lemma set_password_unknown w :
  credentials (self w) !! username (self w) = None ->
  _set_password w = (Ok PyNone, w).
Proof. intros Hr. unfold _set_password. run. now unknown_user Hr. Qed.

Lemma set_password_run w r :
  credentials (self w) !! username (self w) = Some r ->
  let pw := generate_random_pw (entropy w) in
  let w1 := with_entropy N.succ
              (with_self (set_random_password pw) (with_entropy N.succ w)) in
  _set_password w
  = match Hasher_generate (N.succ (entropy w)) pw with
    | Ok h =>
        (Ok (PyStr pw),
         with_self (set_credentials
           (<[username (self w) := mkUser (user_name r) h (user_email r)]>
              (credentials (self w)))) w1)
    | Raise e => (Raise e, w1)
    end.
Proof.
  intros Hr pw w1. unfold _set_password. run. known_user Hr. simpl.
  destruct (Hasher_generate _ _); [|reflexivity]. now rewrite Hr.
Qed.

Lemma set_password_known w r h :
  credentials (self w) !! username (self w) = Some r ->
  let pw := generate_random_pw (entropy w) in
  Hasher_generate (N.succ (entropy w)) pw = Ok h ->
  _set_password w
  = (Ok (PyStr pw),
     with_self (set_credentials
       (<[username (self w) := mkUser (user_name r) h (user_email r)]>
          (credentials (self w))))
       (with_entropy N.succ
          (with_self (set_random_password pw) (with_entropy N.succ w)))).
Proof.
  intros Hr pw Hh. rewrite (set_password_run w r Hr). cbv zeta.
  fold pw. now rewrite Hh.
Qed.

Lemma truthy_str s : s <> "" -> truthy (PyStr s) = true.
Proof. intros H. simpl. now apply negb_true_iff, String.eqb_neq. Qed.

(** C7.  For a username (as typed, lowered) that is not in the credentials
    map, the forgot-password form returns [(None, None, None)] and leaves
    the map as it is.  For a username of the map, a submitted form replaces
    the stored hash of that user by the hash of a password drawn from the
    random source, the hash that [Hasher] returns for it, keeps the name and
    the email, and returns the username, the stored email and the new
    password. *)
Theorem forgot_password_cases (Hpw : random_pw_nonempty) w form form_name location :
  valid_location location ->
  let u := lower (ff_username form) in
  (credentials (self w) !! u = None ->
   exists w',
     forgot_password form form_name location w = (Ok (PyNone, PyNone, PyNone), w')
     /\ credentials (self w') = credentials (self w))
  /\ (forall r h,
      credentials (self w) !! u = Some r ->
      ff_submit form = true ->
      let pw := generate_random_pw (entropy w) in
      Hasher_generate (N.succ (entropy w)) pw = Ok h ->
      exists w',
        forgot_password form form_name location w
        = (Ok (PyStr u, PyStr (user_email r), PyStr pw), w')
        /\ credentials (self w')
           = <[u := mkUser (user_name r) h (user_email r)]> (credentials (self w))).
Proof.
  intros Hloc u. split.
  - intros Hr. unfold forgot_password. run.
    rewrite (location_checked _ _ Hloc). simpl.
    destruct (ff_submit form); [|eauto].
    rewrite set_password_unknown by exact Hr. simpl. eauto.
  - intros r h Hr Hsub pw Hh. unfold forgot_password. run.
    rewrite (location_checked _ _ Hloc), Hsub. simpl.
    rewrite (set_password_known _ r h) by (try exact Hr; exact Hh).
    cbv zeta. rewrite (truthy_str _ (Hpw _)). simpl.
    rewrite lookup_insert_eq. simpl. eauto.
Qed.

(** ** Case-normalized usernames *)

Lemma lower_ascii_idemp c : lower_ascii (lower_ascii c) = lower_ascii c.
Proof. destruct c as [[] [] [] [] [] [] [] []]; reflexivity. Qed.

Lemma lower_idemp s : lower (lower s) = lower s.
Proof.
  induction s as [|c s IH]; simpl; [reflexivity|].
  now rewrite lower_ascii_idemp, IH.
Qed.

Lemma lowercase_keys_insert k r (m : gmap string user) :
  lower k = k -> lowercase_keys m -> lowercase_keys (<[k := r]> m).
Proof.
  intros Hk Hm k'. rewrite dom_insert_L, elem_of_union, elem_of_singleton.
  intros [-> | Hin]; [exact Hk | now apply Hm].
Qed.

Lemma lower_keys_from (items : list (string * user)) (acc : gmap string user) :
  lowercase_keys acc ->
  lowercase_keys (foldl (fun acc kv => <[lower kv.1 := kv.2]> acc) acc items).
Proof.
  revert acc. induction items as [|[k r] items IH]; intros acc Hacc; simpl.
  - exact Hacc.
  - apply IH, lowercase_keys_insert; [apply lower_idemp | exact Hacc].
Qed.

Lemma lower_keys_lowercase items : lowercase_keys (lower_keys items).
Proof.
  apply lower_keys_from. intros k. rewrite dom_empty_L. set_solver.
Qed.

Lemma wrote_at_most_lowercase k m m' :
  wrote_at_most k m m' -> lower k = k -> lowercase_keys m ->
  lowercase_keys m' /\ (forall k', k' <> k -> m' !! k' = m !! k').
Proof.
  intros [-> | [r ->]] Hk Hm.
  - split; [exact Hm | reflexivity].
  - split; [now apply lowercase_keys_insert|].
    intros k' Hne. now apply lookup_insert_ne.
Qed.

Lemma register_credentials_store w :
  exists o w',
    _register_credentials w = (o, w')
    /\ wrote_at_most (new_username (self w)) (credentials (self w))
         (credentials (self w')).
Proof.
  unfold _register_credentials, preauthorized_emails_remove, preauthorized_emails.
  run. unfold wrote_at_most.
  destruct (_ && _); [|eauto].
  destruct (bool_decide _); simpl; [eauto|].
  destruct (String.eqb _ _); [|eauto].
  destruct (Hasher_generate _ _) as [h|e]; simpl; [|eauto].
  destruct (preauthorization (self w)); simpl; [|eauto 6].
  destruct (preauthorized (self w)) as [|l|d] eqn:Hp; simpl; [eauto 6 .. |].
  destruct (d !! "emails") as [emails|]; simpl; [|eauto 6].
  destruct (list_remove _ _); simpl; rewrite ?Hp; eauto 6.
Qed.

Lemma register_user_store w form form_name location pre :
  wrote_at_most (lower (rf_username form)) (credentials (self w))
    (credentials (self (register_user form form_name location pre w).2)).
Proof.
  unfold register_user, check_location, preauthorized_emails. run.
  destruct (preauth_truthy _); simpl; [|now left].
  destruct (bool_decide (location ∈ _)); simpl; [|now left].
  destruct (rf_submit form); simpl; [|now left].
  assert (Hreg : forall w2,
             new_username (self w2) = lower (rf_username form) ->
             credentials (self w2) = credentials (self w) ->
             wrote_at_most (lower (rf_username form)) (credentials (self w))
               (credentials (self
                  (let (o, w3) := _register_credentials w2 in
                   match o with
                   | Ok status =>
                       let (o1, w4) :=
                         match register_user_status !! status with
                         | Some v => fun w5 => (Ok v, w5)
                         | None => fun w5 => (Raise (KeyError status), w5)
                         end w3 in
                       match o1 with
                       | Ok display =>
                           (Ok tt, with_ui (fun l => (l ++ [display status])%list) w4)
                       | Raise e => (Raise e, w4)
                       end
                   | Raise e => (Raise e, w3)
                   end).2))).
  { intros w2 Hu Hc.
    destruct (register_credentials_store w2) as (o & w3 & -> & Hw).
    rewrite Hu, Hc in Hw.
    destruct o as [status|e]; [|exact Hw].
    destruct (register_user_status !! status); exact Hw. }
  destruct pre; simpl.
  - destruct (preauthorized (self w)) as [|l|d]; simpl; [now left .. |].
    destruct (d !! "emails") as [emails|]; simpl; [|now left].
    destruct (bool_decide _); simpl; [|now left].
    now apply Hreg.
  - now apply Hreg.
Qed.

Lemma overwrote_at_most_dom k m m' :
  overwrote_at_most k m m' -> wrote_at_most k m m' /\ dom m' = dom m.
Proof.
  intros [-> | (r & r' & Hr & ->)].
  - split; [now left | reflexivity].
  - split; [right; eauto|].
    rewrite dom_insert_L. apply subseteq_union_1_L, singleton_subseteq_l.
    now apply elem_of_dom_2 in Hr.
Qed.

Lemma update_password_store w :
  exists o w',
    _update_password w = (o, w')
    /\ overwrote_at_most (username (self w)) (credentials (self w))
         (credentials (self w')).
Proof.
  unfold overwrote_at_most. destruct (classic_verify w) as [(r & Hr & Hc) | Hv].
  - rewrite (update_password_verified w r Hr Hc).
    destruct (0 <? _); [|eauto].
    destruct (String.eqb _ _); [|eauto].
    destruct (Hasher_generate _ _) as [h|e]; [|eauto].
    do 2 eexists. split; [reflexivity|]. right. simpl. eauto.
  - destruct (update_password_refused w Hv) as (w' & -> & Hcr). eauto.
Qed.

Lemma reset_password_store w form form_name location :
  overwrote_at_most (lower (sf_username form)) (credentials (self w))
    (credentials (self (reset_password form form_name location w).2)).
Proof.
  unfold reset_password, check_location. run.
  destruct (bool_decide (location ∈ _)); simpl; [|now left].
  destruct (sf_submit form); simpl; [|now left].
  match goal with
  | |- context [_update_password ?x] =>
      destruct (update_password_store x) as (o & w3 & -> & Hw)
  end.
  simpl in Hw. destruct o as [status|e]; [|exact Hw].
  destruct (reset_password_status !! status); exact Hw.
Qed.

Lemma forgot_password_store w form form_name location :
  overwrote_at_most (lower (ff_username form)) (credentials (self w))
    (credentials (self (forgot_password form form_name location w).2)).
Proof.
  unfold forgot_password, check_location. run.
  destruct (bool_decide (location ∈ _)); simpl; [|now left].
  destruct (ff_submit form); simpl; [|now left].
  set (w2 := with_self (set_username (lower (ff_username form))) w).
  destruct (credentials (self w) !! lower (ff_username form)) as [r|] eqn:Hr.
  - rewrite (set_password_run w2 r) by exact Hr. cbv zeta.
    destruct (Hasher_generate _ _) as [h|e]; cbv beta iota; [|now left].
    assert (Hw : overwrote_at_most (lower (ff_username form)) (credentials (self w))
              (<[lower (ff_username form) :=
                   mkUser (user_name r) h (user_email r)]>
                 (credentials (self w)))) by (right; eauto).
    destruct (truthy _); simpl; [|exact Hw].
    rewrite lookup_insert_eq. exact Hw.
  - rewrite (set_password_unknown w2) by exact Hr. now left.
Qed.

(** C9.  The constructor leaves only lowercase keys in the usernames map,
    each of them once.  The forms that write the map keep it so:
    registration writes at most the entry of the lowered new username;
    password reset and forgot-password replace at most the entry that the
    lowered username already has, so the set of keys stays the same. *)
Theorem usernames_case_normalized :
  (forall items cookie_name key days pre raw jar seed clk,
      let m := credentials
                 (self (__init__ items cookie_name key days pre raw jar seed clk)) in
      lowercase_keys m /\ NoDup (map_to_list m).*1)
  /\ (forall w form form_name location pre,
      lowercase_keys (credentials (self w)) ->
      let m' := credentials (self (register_user form form_name location pre w).2) in
      lowercase_keys m' /\ NoDup (map_to_list m').*1
      /\ (forall k, k <> lower (rf_username form) ->
          m' !! k = credentials (self w) !! k))
  /\ (forall w form form_name location,
      lowercase_keys (credentials (self w)) ->
      let m' := credentials (self (reset_password form form_name location w).2) in
      lowercase_keys m' /\ NoDup (map_to_list m').*1
      /\ dom m' = dom (credentials (self w))
      /\ (forall k, k <> lower (sf_username form) ->
          m' !! k = credentials (self w) !! k))
  /\ (forall w form form_name location,
      lowercase_keys (credentials (self w)) ->
      let m' := credentials (self (forgot_password form form_name location w).2) in
      lowercase_keys m' /\ NoDup (map_to_list m').*1
      /\ dom m' = dom (credentials (self w))
      /\ (forall k, k <> lower (ff_username form) ->
          m' !! k = credentials (self w) !! k)).
Proof.
  split; [|split; [|split]].
  - intros. split; [apply lower_keys_lowercase | apply NoDup_fst_map_to_list].
  - intros w form form_name location pre Hm m'.
    destruct (wrote_at_most_lowercase _ _ _
                (register_user_store w form form_name location pre)
                (lower_idemp _) Hm) as [H1 H2].
    repeat split; [exact H1 | apply NoDup_fst_map_to_list | exact H2].
  - intros w form form_name location Hm m'.
    destruct (overwrote_at_most_dom _ _ _
                (reset_password_store w form form_name location)) as [Hw Hd].
    destruct (wrote_at_most_lowercase _ _ _ Hw (lower_idemp _) Hm) as [H1 H2].
    repeat split; [exact H1 | apply NoDup_fst_map_to_list | exact Hd | exact H2].
  - intros w form form_name location Hm m'.
    destruct (overwrote_at_most_dom _ _ _
                (forgot_password_store w form form_name location)) as [Hw Hd].
    destruct (wrote_at_most_lowercase _ _ _ Hw (lower_idemp _) Hm) as [H1 H2].
    repeat split; [exact H1 | apply NoDup_fst_map_to_list | exact Hd | exact H2].
Qed.

(** * Further properties of the methods *)

(** ** The location argument *)

Lemma location_refused location w :
  ~ valid_location location ->
  check_location location w
  = (Raise (ValueError "Location must be one of 'main' or 'sidebar'"), w).
Proof.
  intros Hl. unfold check_location.
  rewrite bool_decide_eq_false_2; [reflexivity|].
  rewrite !elem_of_cons, elem_of_nil. unfold valid_location in Hl. tauto.
Qed.

(** X1.  Every widget refuses a location other than 'main' and 'sidebar' with a
    [ValueError], before it reads a field, writes an attribute or touches
    the store; [register_user] does so once the test of [preauthorized] has
    passed. *)
Theorem invalid_location_raises location :
  ~ valid_location location ->
  let e := ValueError "Location must be one of 'main' or 'sidebar'" in
  (forall w form form_name, login form form_name location w = (Raise e, w))
  /\ (forall w pressed button_name, logout pressed button_name location w = (Raise e, w))
  /\ (forall w form form_name, reset_password form form_name location w = (Raise e, w))
  /\ (forall w form form_name, forgot_password form form_name location w = (Raise e, w))
  /\ (forall w form form_name pre,
      preauth_truthy (preauthorized (self w)) = true ->
      register_user form form_name location pre w = (Raise e, w)).
Proof.
  intros Hl e0. subst e0. repeat split; intros.
  - unfold login. run. now rewrite (location_refused _ _ Hl).
  - unfold logout. run. now rewrite (location_refused _ _ Hl).
  - unfold reset_password. run. now rewrite (location_refused _ _ Hl).
  - unfold forgot_password. run. now rewrite (location_refused _ _ Hl).
  - unfold register_user. run. rewrite H. simpl.
    now rewrite (location_refused _ _ Hl).
Qed.

(** ** The login widget *)

Lemma check_cookie_absent_run w :
  cookies w !! cookie_name (self w) = None ->
  _check_cookie w = (Ok tt, with_self (set_token TokNone) w).
Proof. intros Hc. unfold _check_cookie. run. now rewrite Hc. Qed.

Lemma check_cookie_accept_run w c d (ex : Z) (n u : pyval) :
  cookies w !! cookie_name (self w) = Some c ->
  jwt_decode (cookie_value c) (key (self w)) = Ok d ->
  truthy (ss_logout (session w)) = false ->
  d !! "exp_date" = Some (PyNum ex) ->
  utcnow (time w) < ex ->
  d !! "name" = Some n ->
  d !! "username" = Some u ->
  _check_cookie w
  = (Ok tt,
     with_session (set_ss_authentication_status (PyBool true))
       (with_session (set_ss_username u)
          (with_session (set_ss_name n)
             (with_self (set_token (TokDict d))
                (with_self (set_token (TokStr (cookie_value c))) w))))).
Proof.
  intros Hc Hd Hl He Hlt Hn Hu. unfold _check_cookie, _token_decode, py_gt. run.
  rewrite Hc. simpl. rewrite Hd. simpl. rewrite Hl. simpl. rewrite He.
  rewrite (proj2 (Z.ltb_lt _ _) Hlt).
  rewrite bool_decide_eq_true_2 by (apply elem_of_dom; rewrite Hu; eauto).
  rewrite Hn, Hu. reflexivity.
Qed.

(** X2.  In a session that is authenticated, [login] does nothing: no cookie is
    read, no field of the form is taken, no credentials are checked; it
    returns the name, status and username of session state. *)
Theorem login_authenticated_noop w form form_name location :
  valid_location location ->
  truthy (ss_authentication_status (session w)) = true ->
  login form form_name location w
  = (Ok (ss_name (session w), ss_authentication_status (session w),
         ss_username (session w)), w).
Proof.
  intros Hloc Hst. unfold login. run.
  rewrite (location_checked _ _ Hloc), Hst. reflexivity.
Qed.

(** X3.  A cookie that decodes under the key, with an expiry date in the future
    and the entries of name and username, signs the session in before the
    form is looked at: [login] returns what the token holds with status
    [True], whatever was typed and whether or not the button was pressed,
    and neither the attributes [username] and [password] nor the messages,
    the cookies or the credentials change. *)
Theorem login_by_cookie w form form_name location c d (ex : Z) (n u : pyval) :
  valid_location location ->
  truthy (ss_authentication_status (session w)) = false ->
  cookies w !! cookie_name (self w) = Some c ->
  jwt_decode (cookie_value c) (key (self w)) = Ok d ->
  truthy (ss_logout (session w)) = false ->
  d !! "exp_date" = Some (PyNum ex) ->
  utcnow (time w) < ex ->
  d !! "name" = Some n ->
  d !! "username" = Some u ->
  exists w',
    login form form_name location w = (Ok (n, PyBool true, u), w')
    /\ session w' = mkSession n (PyBool true) u (ss_logout (session w))
    /\ username (self w') = username (self w)
    /\ password (self w') = password (self w)
    /\ credentials (self w') = credentials (self w)
    /\ cookies w' = cookies w
    /\ ui w' = ui w.
Proof.
  intros Hloc Hst Hc Hd Hl He Hlt Hn Hu. unfold login. run.
  rewrite (location_checked _ _ Hloc), Hst. simpl.
  rewrite (check_cookie_accept_run w c d ex n u Hc Hd Hl He Hlt Hn Hu). simpl.
  eexists. split; [reflexivity|]. repeat split.
Qed.

(** X4.  With no cookie, a submitted form whose username is unknown or whose
    password does not match leaves the session unauthenticated: the status
    is [False], the typed username, lowered, is in session state, the
    message 'Username/password is incorrect' is shown, and no cookie is
    set. *)
Theorem login_rejected w form form_name location :
  valid_location location ->
  truthy (ss_authentication_status (session w)) = false ->
  cookies w !! cookie_name (self w) = None ->
  lf_submit form = true ->
  (credentials (self w) !! lower (lf_username form) = None
   \/ exists r, credentials (self w) !! lower (lf_username form) = Some r
                /\ checkpw (lf_password form) (user_password r) = Ok false) ->
  exists w',
    login form form_name location w
    = (Ok (ss_name (session w), PyBool false, PyStr (lower (lf_username form))), w')
    /\ cookies w' = cookies w
    /\ credentials (self w') = credentials (self w)
    /\ ui w' = (ui w ++ [Error "Username/password is incorrect"])%list.
Proof.
  intros Hloc Hst Hc Hsub Hbad. unfold login. run.
  rewrite (location_checked _ _ Hloc), Hst. simpl.
  rewrite (check_cookie_absent_run w Hc). simpl.
  rewrite (truthy_false_not_True _ Hst), Hsub. simpl.
  destruct Hbad as [Hr | (r & Hr & Hpw)].
  - erewrite (check_credentials_unknown _ true) by exact Hr. simpl.
    eexists. split; [reflexivity|]. repeat split.
  - erewrite (check_credentials_mismatch _ r true); [| exact Hr | exact Hpw].
    simpl. eexists. split; [reflexivity|]. repeat split.
Qed.

(** The world in which [login] checks the credentials of a form, when
    there was no cookie. *)
Lemma login_accepted_run w form form_name location r (exp : Z) (t : jwt)
    (ea : Z) :
  valid_location location ->
  truthy (ss_authentication_status (session w)) = false ->
  cookies w !! cookie_name (self w) = None ->
  lf_submit form = true ->
  credentials (self w) !! lower (lf_username form) = Some r ->
  checkpw (lf_password form) (user_password r) = Ok true ->
  can_issue w (PyStr (user_name r)) (PyStr (lower (lf_username form))) exp t ea ->
  login form form_name location w
  = (Ok (PyStr (user_name r), PyBool true, PyStr (lower (lf_username form))),
     logged_in
       (with_self (set_password (lf_password form))
          (with_session (set_ss_username (PyStr (lower (lf_username form))))
             (with_self (set_username (lower (lf_username form)))
                (with_self (set_token TokNone) w)))) r exp t ea).
Proof.
  intros Hloc Hst Hc Hsub Hr Hpw Hi. unfold login. run.
  rewrite (location_checked _ _ Hloc), Hst. simpl.
  rewrite (check_cookie_absent_run w Hc). simpl.
  rewrite (truthy_false_not_True _ Hst), Hsub. simpl.
  erewrite (check_credentials_logs_in _ r exp t ea);
    [| exact Hr | exact Hpw | exact Hi].
  reflexivity.
Qed.


(** X6.  With no cookie and a form that is not submitted, [login] checks
    nothing: the status stays what it was, the typed username, lowered,
    is written to session state all the same, and the message follows the
    status: the warning that asks for the credentials when it is [None], the
    error of a rejected login when it is [False], as left by an earlier
    attempt. *)
Theorem login_waiting w form form_name location :
  valid_location location ->
  truthy (ss_authentication_status (session w)) = false ->
  cookies w !! cookie_name (self w) = None ->
  lf_submit form = false ->
  exists w',
    login form form_name location w
    = (Ok (ss_name (session w), ss_authentication_status (session w),
           PyStr (lower (lf_username form))), w')
    /\ ui w' = (ui w ++ login_messages (ss_authentication_status (session w)))%list
    /\ cookies w' = cookies w
    /\ credentials (self w') = credentials (self w).
Proof.
  intros Hloc Hst Hc Hsub. unfold login, login_messages. run.
  rewrite (location_checked _ _ Hloc), Hst. simpl.
  rewrite (check_cookie_absent_run w Hc). simpl.
  rewrite (truthy_false_not_True _ Hst), Hsub. simpl.
  destruct (py_eq _ (PyBool false)); simpl;
    (destruct (py_eq _ PyNone); simpl;
     eexists; (split; [reflexivity|]); repeat split;
     simpl; rewrite <- ?app_assoc, ?app_nil_r; reflexivity).
Qed.

(** X7.  When the password check raises for a submitted form (the stored hash
    is malformed), [login] returns normally and the status stays what it
    was: for a status of [None] the form shows the warning that asks for
    the credentials, not the error of a rejected login.  The exception is
    printed and no cookie is set. *)
Theorem login_check_raises w form form_name location r e :
  valid_location location ->
  truthy (ss_authentication_status (session w)) = false ->
  cookies w !! cookie_name (self w) = None ->
  lf_submit form = true ->
  credentials (self w) !! lower (lf_username form) = Some r ->
  checkpw (lf_password form) (user_password r) = Raise e ->
  exists w',
    login form form_name location w
    = (Ok (ss_name (session w), ss_authentication_status (session w),
           PyStr (lower (lf_username form))), w')
    /\ ui w' = (ui w ++ login_messages (ss_authentication_status (session w)))%list
    /\ stdout w' = (stdout w ++ [e])%list
    /\ cookies w' = cookies w.
Proof.
  intros Hloc Hst Hc Hsub Hr Hpw. unfold login, login_messages. run.
  rewrite (location_checked _ _ Hloc), Hst. simpl.
  rewrite (check_cookie_absent_run w Hc). simpl.
  rewrite (truthy_false_not_True _ Hst), Hsub. simpl.
  erewrite (check_credentials_raise _ r e true); [| exact Hr | exact Hpw].
  simpl.
  destruct (py_eq _ (PyBool false)); simpl;
    (destruct (py_eq _ PyNone); simpl;
     eexists; (split; [reflexivity|]); repeat split;
     simpl; rewrite <- ?app_assoc, ?app_nil_r; reflexivity).
Qed.


(** X9.  After a pressed logout button in a browser that holds the cookie,
    a call of [login] whose form is not submitted finds no cookie and a
    cleared session: it returns no name and the status [None], and asks for
    the credentials.  In a browser that does not hold the cookie, the
    pressed button raises [KeyError] and nothing is changed: the session is
    what it was. *)
Theorem logout_then_login w button_name location form form_name location' :
  valid_location location ->
  valid_location location' ->
  cookie_name (self w) <> "" ->
  lf_submit form = false ->
  (forall c,
      cookies w !! cookie_name (self w) = Some c ->
      exists w',
        login form form_name location' (logout true button_name location w).2
        = (Ok (PyNone, PyNone, PyStr (lower (lf_username form))), w')
        /\ ui w' = (ui w ++ [Warning "Please enter your username and password"])%list
        /\ cookies w' !! cookie_name (self w) = None
        /\ ss_logout (session w') = PyBool true)
  /\ (cookies w !! cookie_name (self w) = None ->
      logout true button_name location w
      = (Raise (KeyError (cookie_name (self w))), w)).
Proof.
  intros Hloc Hloc' Hn Hsub. split.
  - intros c Hc. rewrite (logout_run w button_name location c Hloc Hn Hc).
    cbn [snd]. unfold login. run. rewrite (location_checked _ _ Hloc'). simpl.
    rewrite check_cookie_absent_run by (simpl; apply lookup_delete_eq).
    simpl. rewrite Hsub. simpl.
    eexists. split; [reflexivity|]. simpl. repeat split. apply lookup_delete_eq.
  - intros Hc. now apply logout_no_cookie.
Qed.

(** ** Tokens that decode but lack an entry *)

(** X10.  For a cookie that decodes under the key, in a session whose logout flag
    is not set: without 'exp_date' the cookie check raises [KeyError]; with
    an 'exp_date' that is [None] or a string it raises [TypeError]; with an
    expiry date in the future, the membership test looks for 'username'
    only, so a token without 'username' is ignored and a token with
    'username' but without 'name' raises [KeyError].  Session state is the
    same after each of them. *)
Theorem cookie_payload_keys w c d :
  cookies w !! cookie_name (self w) = Some c ->
  jwt_decode (cookie_value c) (key (self w)) = Ok d ->
  truthy (ss_logout (session w)) = false ->
  (d !! "exp_date" = None ->
   exists w', _check_cookie w = (Raise (KeyError "exp_date"), w')
              /\ session w' = session w)
  /\ (d !! "exp_date" = Some PyNone \/ (exists s, d !! "exp_date" = Some (PyStr s)) ->
      exists msg w', _check_cookie w = (Raise (TypeError msg), w')
                     /\ session w' = session w)
  /\ (forall ex : Z,
      d !! "exp_date" = Some (PyNum ex) -> utcnow (time w) < ex ->
      d !! "username" = None ->
      cookie_check_gives w (session w))
  /\ (forall (ex : Z) (u : pyval),
      d !! "exp_date" = Some (PyNum ex) -> utcnow (time w) < ex ->
      d !! "username" = Some u -> d !! "name" = None ->
      exists w', _check_cookie w = (Raise (KeyError "name"), w')
                 /\ session w' = session w).
Proof.
  intros Hc Hd Hl.
  unfold cookie_check_gives, _check_cookie, _token_decode, py_gt. run.
  rewrite Hc. simpl. rewrite Hd. simpl. rewrite Hl. simpl.
  split; [|split; [|split]].
  - intros ->. eauto.
  - intros [-> | [s ->]]; simpl; eauto.
  - intros ex -> Hlt Hu. rewrite (proj2 (Z.ltb_lt _ _) Hlt).
    rewrite bool_decide_eq_false_2
      by (rewrite elem_of_dom, Hu; apply is_Some_None).
    eauto.
  - intros ex u -> Hlt Hu Hn. rewrite (proj2 (Z.ltb_lt _ _) Hlt).
    rewrite bool_decide_eq_true_2 by (apply elem_of_dom; rewrite Hu; eauto).
    rewrite Hn. eauto.
Qed.

(** ** Registration that succeeds, and preauthorized emails *)

Lemma lower_nonempty s : s <> "" -> lower s <> "".
Proof. destruct s; [congruence | discriminate]. Qed.

Lemma list_remove_Some x l l' : list_remove x l = Some l' -> l ≡ₚ x :: l'.
Proof.
  revert l'. induction l as [|y l IH]; intros l'; simpl; [discriminate|].
  destruct (String.eqb_spec y x) as [-> | Hne].
  - intros [= ->]. reflexivity.
  - destruct (list_remove x l) as [l0|]; simpl; [|discriminate].
    intros [= <-]. rewrite (IH l0 eq_refl). apply Permutation_swap.
Qed.

Lemma list_remove_elem x l : x ∈ l -> is_Some (list_remove x l).
Proof.
  induction l as [|y l IH]; simpl; [intros H; inversion H|].
  destruct (String.eqb_spec y x) as [-> | Hne]; [eauto|].
  rewrite elem_of_cons. intros [-> | Hin]; [congruence|].
  destruct (IH Hin) as [l0 ->]. simpl. eauto.
Qed.

Lemma registered_shown :
  register_user_status !! "User registered successfully" = Some Success.
Proof. vm_compute. reflexivity. Qed.

Lemma register_credentials_open w h :
  new_username (self w) <> "" -> new_name (self w) <> "" ->
  new_password (self w) <> "" ->
  credentials (self w) !! new_username (self w) = None ->
  new_password (self w) = new_password_repeat (self w) ->
  preauthorization (self w) = false ->
  Hasher_generate (entropy w) (new_password (self w)) = Ok h ->
  _register_credentials w
  = (Ok "User registered successfully",
     with_self (set_credentials
       (<[new_username (self w) :=
            mkUser (new_name (self w)) h (registered_email (self w))]>
          (credentials (self w))))
       (with_entropy N.succ w)).
Proof.
  intros Hu Hn Hp Hfree Heq Hpre Hh. unfold _register_credentials. run.
  rewrite (fields_entered w Hu Hn Hp).
  rewrite bool_decide_eq_false_2 by (rewrite elem_of_dom, Hfree; apply is_Some_None).
  simpl. rewrite <- Heq, String.eqb_refl, Hh, Hpre. reflexivity.
Qed.

Lemma register_credentials_preauthorized w d emails emails' h :
  new_username (self w) <> "" -> new_name (self w) <> "" ->
  new_password (self w) <> "" ->
  credentials (self w) !! new_username (self w) = None ->
  new_password (self w) = new_password_repeat (self w) ->
  preauthorization (self w) = true ->
  preauthorized (self w) = PreDict d ->
  d !! "emails" = Some emails ->
  list_remove (registered_email (self w)) emails = Some emails' ->
  Hasher_generate (entropy w) (new_password (self w)) = Ok h ->
  _register_credentials w
  = (Ok "User registered successfully",
     with_self (set_preauthorized (PreDict (<["emails" := emails']> d)))
       (with_self (set_credentials
          (<[new_username (self w) :=
               mkUser (new_name (self w)) h (registered_email (self w))]>
             (credentials (self w))))
          (with_entropy N.succ w))).
Proof.
  intros Hu Hn Hp Hfree Heq Hpre Hd He Hrm Hh.
  unfold _register_credentials, preauthorized_emails_remove, preauthorized_emails.
  run. rewrite (fields_entered w Hu Hn Hp).
  rewrite bool_decide_eq_false_2 by (rewrite elem_of_dom, Hfree; apply is_Some_None).
  simpl. rewrite <- Heq, String.eqb_refl, Hh, Hpre. simpl.
  rewrite Hd, He, Hrm. simpl. rewrite Hd. reflexivity.
Qed.

(** X12.  A submitted registration with [preauthorization] false, all fields
    entered, a username that is free once lowered and a confirmed password
    for which [Hasher] returns a hash stores the user under the lowered
    username, with the name, that hash and the email of the form; the
    message of success is shown; the preauthorized emails, session state
    and the cookies are as before: the new user is not logged in. *)
Theorem register_open w form form_name location h :
  valid_location location ->
  preauth_truthy (preauthorized (self w)) = true ->
  rf_submit form = true ->
  rf_username form <> "" -> rf_name form <> "" -> rf_password form <> "" ->
  credentials (self w) !! lower (rf_username form) = None ->
  rf_password form = rf_password_repeat form ->
  Hasher_generate (entropy w) (rf_password form) = Ok h ->
  exists w',
    register_user form form_name location false w = (Ok tt, w')
    /\ credentials (self w')
       = <[lower (rf_username form) := mkUser (rf_name form) h (rf_email form)]>
           (credentials (self w))
    /\ preauthorized (self w') = preauthorized (self w)
    /\ session w' = session w
    /\ cookies w' = cookies w
    /\ ui w' = (ui w ++ [Success "User registered successfully"])%list.
Proof.
  intros Hloc Hpre Hsub Hu Hn Hp Hfree Heq Hh. unfold register_user. run.
  rewrite Hpre. simpl. rewrite (location_checked _ _ Hloc), Hsub. simpl.
  erewrite (register_credentials_open _ h);
    [| simpl; now apply lower_nonempty | simpl; exact Hn | simpl; exact Hp
     | simpl; exact Hfree | simpl; exact Heq | reflexivity | simpl; exact Hh].
  rewrite registered_shown. simpl.
  eexists. split; [reflexivity|]. repeat split.
Qed.

Lemma register_user_preauthorized_run w form form_name location d emails emails'
    h :
  valid_location location ->
  preauthorized (self w) = PreDict d ->
  d !! "emails" = Some emails ->
  list_remove (rf_email form) emails = Some emails' ->
  rf_submit form = true ->
  rf_username form <> "" -> rf_name form <> "" -> rf_password form <> "" ->
  credentials (self w) !! lower (rf_username form) = None ->
  rf_password form = rf_password_repeat form ->
  Hasher_generate (entropy w) (rf_password form) = Ok h ->
  register_user form form_name location true w
  = (Ok tt,
     with_ui (fun l => (l ++ [Success "User registered successfully"])%list)
       (with_self (set_preauthorized (PreDict (<["emails" := emails']> d)))
          (with_self (set_credentials
             (<[lower (rf_username form) :=
                  mkUser (rf_name form) h (rf_email form)]>
                (credentials (self w))))
             (with_entropy N.succ
                (with_self (set_preauthorization true)
                   (with_self (set_new_password_repeat (rf_password_repeat form))
                      (with_self (set_new_password (rf_password form))
                         (with_self (set_new_name (rf_name form))
                            (with_self (set_new_username (lower (rf_username form)))
                               (with_self (set_registered_email (rf_email form))
                                  w)))))))))).
Proof.
  intros Hloc Hd He Hrm Hsub Hu Hn Hp Hfree Heq Hh.
  assert (Hin : rf_email form ∈ emails).
  { rewrite (list_remove_Some _ _ _ Hrm). apply elem_of_cons. now left. }
  unfold register_user, preauthorized_emails. run.
  rewrite Hd. simpl.
  destruct (bool_decide (d = ∅)) eqn:Hempty.
  { apply bool_decide_eq_true in Hempty. subst d. rewrite lookup_empty in He.
    discriminate. }
  simpl. rewrite (location_checked _ _ Hloc), Hsub. simpl. rewrite Hd, He.
  rewrite (bool_decide_eq_true_2 _ Hin).
  erewrite (register_credentials_preauthorized _ d emails emails' h);
    [| simpl; now apply lower_nonempty | simpl; exact Hn | simpl; exact Hp
     | simpl; exact Hfree | simpl; exact Heq | reflexivity | simpl; exact Hd
     | exact He | simpl; exact Hrm | simpl; exact Hh].
  rewrite registered_shown. reflexivity.
Qed.

(** X13.  A submitted registration with [preauthorization] true, under an email
    of the preauthorized list and with a password for which [Hasher]
    returns a hash, stores the user as above and takes one occurrence of
    that email out of the list: the list before is the new list with the
    email put back. *)
Theorem register_preauthorized w form form_name location d emails h :
  valid_location location ->
  preauthorized (self w) = PreDict d ->
  d !! "emails" = Some emails ->
  rf_email form ∈ emails ->
  rf_submit form = true ->
  rf_username form <> "" -> rf_name form <> "" -> rf_password form <> "" ->
  credentials (self w) !! lower (rf_username form) = None ->
  rf_password form = rf_password_repeat form ->
  Hasher_generate (entropy w) (rf_password form) = Ok h ->
  exists w' emails',
    register_user form form_name location true w = (Ok tt, w')
    /\ credentials (self w')
       = <[lower (rf_username form) := mkUser (rf_name form) h (rf_email form)]>
           (credentials (self w))
    /\ preauthorized (self w') = PreDict (<["emails" := emails']> d)
    /\ emails ≡ₚ rf_email form :: emails'
    /\ ui w' = (ui w ++ [Success "User registered successfully"])%list.
Proof.
  intros Hloc Hd He Hin Hsub Hu Hn Hp Hfree Heq Hh.
  destruct (list_remove_elem _ _ Hin) as [emails' Hrm].
  rewrite (register_user_preauthorized_run w form form_name location d emails
             emails' h Hloc Hd He Hrm Hsub Hu Hn Hp Hfree Heq Hh).
  eexists _, emails'. split; [reflexivity|]. repeat split.
  now apply list_remove_Some.
Qed.

Lemma register_user_unauthorized_run w form form_name location d emails :
  valid_location location ->
  preauthorized (self w) = PreDict d ->
  d !! "emails" = Some emails ->
  rf_email form ∉ emails ->
  rf_submit form = true ->
  register_user form form_name location true w
  = (Ok tt,
     with_ui (fun l => (l ++ [Error "User not authorized to register"])%list)
       (with_self (set_preauthorization true)
          (with_self (set_new_password_repeat (rf_password_repeat form))
             (with_self (set_new_password (rf_password form))
                (with_self (set_new_name (rf_name form))
                   (with_self (set_new_username (lower (rf_username form)))
                      (with_self (set_registered_email (rf_email form)) w))))))).
Proof.
  intros Hloc Hd He Hin Hsub. unfold register_user, preauthorized_emails. run.
  rewrite Hd. simpl.
  destruct (bool_decide (d = ∅)) eqn:Hempty.
  { apply bool_decide_eq_true in Hempty. subst d. rewrite lookup_empty in He.
    discriminate. }
  simpl. rewrite (location_checked _ _ Hloc), Hsub. simpl. rewrite Hd, He.
  now rewrite (bool_decide_eq_false_2 _ Hin).
Qed.

(** X14.  A submitted registration with [preauthorization] true under an email
    that is not in the preauthorized list is refused with the message 'User
    not authorized to register', whatever the other fields hold; the
    credentials map and the list are as before. *)
Theorem register_unauthorized w form form_name location d emails :
  valid_location location ->
  preauthorized (self w) = PreDict d ->
  d !! "emails" = Some emails ->
  rf_email form ∉ emails ->
  rf_submit form = true ->
  exists w',
    register_user form form_name location true w = (Ok tt, w')
    /\ credentials (self w') = credentials (self w)
    /\ preauthorized (self w') = preauthorized (self w)
    /\ ui w' = (ui w ++ [Error "User not authorized to register"])%list.
Proof.
  intros Hloc Hd He Hin Hsub.
  rewrite (register_user_unauthorized_run w form form_name location d emails
             Hloc Hd He Hin Hsub).
  eexists. split; [reflexivity|]. repeat split.
Qed.

(** X15.  A preauthorized email that is listed once registers one user: after a
    registration under it that succeeded, which takes that [Hasher] returned
    a hash for the password, every further submission under the same email
    is refused and stores nothing. *)
Theorem preauthorized_email_single_use w form form_name location d emails h
    form2 form_name2 location2 :
  valid_location location ->
  preauthorized (self w) = PreDict d ->
  d !! "emails" = Some emails ->
  NoDup emails ->
  rf_email form ∈ emails ->
  rf_submit form = true ->
  rf_username form <> "" -> rf_name form <> "" -> rf_password form <> "" ->
  credentials (self w) !! lower (rf_username form) = None ->
  rf_password form = rf_password_repeat form ->
  Hasher_generate (entropy w) (rf_password form) = Ok h ->
  valid_location location2 ->
  rf_email form2 = rf_email form ->
  rf_submit form2 = true ->
  let w1 := (register_user form form_name location true w).2 in
  (register_user form form_name location true w).1 = Ok tt
  /\ credentials (self w1) !! lower (rf_username form)
     = Some (mkUser (rf_name form) h (rf_email form))
  /\ exists w2,
      register_user form2 form_name2 location2 true w1 = (Ok tt, w2)
      /\ credentials (self w2) = credentials (self w1)
      /\ ui w2 = (ui w1 ++ [Error "User not authorized to register"])%list.
Proof.
  intros Hloc Hd He Hnd Hin Hsub Hu Hn Hp Hfree Heq Hh Hloc2 Hmail Hsub2 w1.
  destruct (list_remove_elem _ _ Hin) as [emails' Hrm].
  pose proof (list_remove_Some _ _ _ Hrm) as Hperm.
  assert (Hout : rf_email form2 ∉ emails').
  { rewrite Hmail. rewrite Hperm in Hnd. now apply NoDup_cons in Hnd as [? _]. }
  pose proof (register_user_preauthorized_run w form form_name location d emails
                emails' h Hloc Hd He Hrm Hsub Hu Hn Hp Hfree Heq Hh) as Hrun.
  assert (Hd1 : preauthorized (self w1) = PreDict (<["emails" := emails']> d)).
  { subst w1. now rewrite Hrun. }
  assert (Hu1 : credentials (self w1) !! lower (rf_username form)
                = Some (mkUser (rf_name form) h (rf_email form))).
  { subst w1. rewrite Hrun. simpl. apply lookup_insert_eq. }
  assert (Hok : (register_user form form_name location true w).1 = Ok tt)
    by now rewrite Hrun.
  clear Hrun. clearbody w1.
  split; [exact Hok|]. split; [exact Hu1|].
  assert (He1 : <["emails" := emails']> d !! "emails" = Some emails')
    by apply lookup_insert_eq.
  rewrite (register_user_unauthorized_run w1 form2 form_name2 location2 _ emails'
             Hloc2 Hd1 He1 Hout Hsub2).
  eexists. split; [reflexivity|]. split; reflexivity.
Qed.

(** X16.  With [preauthorization] true, a submitted form needs the emails: when
    [preauthorized] is a list, as the signature of the constructor says, the
    form raises [TypeError]; when it is a dictionary without 'emails' it
    raises [KeyError]; nothing is registered. *)
Theorem register_without_emails w form form_name location :
  valid_location location ->
  rf_submit form = true ->
  (forall l, l <> [] -> preauthorized (self w) = PreList l ->
   exists w',
     register_user form form_name location true w
     = (Raise (TypeError "list indices must be integers or slices, not str"), w')
     /\ credentials (self w') = credentials (self w))
  /\ (forall d, d <> ∅ -> preauthorized (self w) = PreDict d ->
      d !! "emails" = None ->
      exists w',
        register_user form form_name location true w
        = (Raise (KeyError "emails"), w')
        /\ credentials (self w') = credentials (self w)).
Proof.
  intros Hloc Hsub. split.
  - intros l Hl Hp. unfold register_user, preauthorized_emails. run.
    rewrite Hp. destruct l; [congruence|]. simpl.
    rewrite (location_checked _ _ Hloc), Hsub. simpl. rewrite Hp. eauto.
  - intros d Hne Hp He. unfold register_user, preauthorized_emails. run.
    rewrite Hp. simpl. rewrite (bool_decide_eq_false_2 _ Hne). simpl.
    rewrite (location_checked _ _ Hloc), Hsub. simpl. rewrite Hp, He. eauto.
Qed.

(** ** Logging in with a password that the forms have stored *)

Lemma register_user_open_run w form form_name location h :
  valid_location location ->
  preauth_truthy (preauthorized (self w)) = true ->
  rf_submit form = true ->
  rf_username form <> "" -> rf_name form <> "" -> rf_password form <> "" ->
  credentials (self w) !! lower (rf_username form) = None ->
  rf_password form = rf_password_repeat form ->
  Hasher_generate (entropy w) (rf_password form) = Ok h ->
  register_user form form_name location false w
  = (Ok tt,
     with_ui (fun l => (l ++ [Success "User registered successfully"])%list)
       (with_self (set_credentials
          (<[lower (rf_username form) :=
               mkUser (rf_name form) h (rf_email form)]>
             (credentials (self w))))
          (with_entropy N.succ
             (with_self (set_preauthorization false)
                (with_self (set_new_password_repeat (rf_password_repeat form))
                   (with_self (set_new_password (rf_password form))
                      (with_self (set_new_name (rf_name form))
                         (with_self (set_new_username (lower (rf_username form)))
                            (with_self (set_registered_email (rf_email form))
                               w))))))))).
Proof.
  intros Hloc Hpre Hsub Hu Hn Hp Hfree Heq Hh. unfold register_user. run.
  rewrite Hpre. simpl. rewrite (location_checked _ _ Hloc), Hsub. simpl.
  erewrite (register_credentials_open _ h);
    [| simpl; now apply lower_nonempty | simpl; exact Hn | simpl; exact Hp
     | simpl; exact Hfree | simpl; exact Heq | reflexivity | simpl; exact Hh].
  rewrite registered_shown. reflexivity.
Qed.

(** X17.  A user who has registered can log in: after a registration that
    succeeded, with the hash that [Hasher] returned, a submitted login form
    with the same username, in any case of its letters, and the same
    password, for which the expiry date, the token and the expiry of the
    cookie are computed without an exception, returns the registered name
    with status [True]. *)
Theorem register_then_login (Hhash : hash_verifies) w form form_name location h
    form' form_name' location' (exp : Z) (t : jwt) (ea : Z) :
  valid_location location ->
  preauth_truthy (preauthorized (self w)) = true ->
  rf_submit form = true ->
  rf_username form <> "" -> rf_name form <> "" -> rf_password form <> "" ->
  credentials (self w) !! lower (rf_username form) = None ->
  rf_password form = rf_password_repeat form ->
  Hasher_generate (entropy w) (rf_password form) = Ok h ->
  truthy (ss_authentication_status (session w)) = false ->
  cookies w !! cookie_name (self w) = None ->
  valid_location location' ->
  lower (lf_username form') = lower (rf_username form) ->
  lf_password form' = rf_password form ->
  lf_submit form' = true ->
  can_issue w (PyStr (rf_name form)) (PyStr (lower (rf_username form))) exp t ea ->
  (register_user form form_name location false w).1 = Ok tt
  /\ (login form' form_name' location'
        (register_user form form_name location false w).2).1
     = Ok (PyStr (rf_name form), PyBool true, PyStr (lower (rf_username form))).
Proof.
  intros Hloc Hpre Hsub Hu Hn Hp Hfree Heq Hh Hst Hc Hloc' Hu' Hp' Hsub' Hi.
  rewrite (register_user_open_run w form form_name location h
             Hloc Hpre Hsub Hu Hn Hp Hfree Heq Hh).
  cbn [fst snd]. split; [reflexivity|].
  erewrite (login_accepted_run _ form' form_name' location'
              (mkUser (rf_name form) h (rf_email form)) exp t ea);
    [ | exact Hloc' | exact Hst | exact Hc | exact Hsub'
      | simpl; rewrite Hu'; apply lookup_insert_eq
      | simpl; rewrite Hp'; exact (Hhash _ _ _ Hh)
      | simpl; rewrite Hu'; exact Hi ].
  simpl. now rewrite Hu'.
Qed.

Lemma reset_shown :
  reset_password_status !! "Password reset successfully" = Some Success.
Proof. vm_compute. reflexivity. Qed.

Lemma reset_password_run w form form_name location r h :
  valid_location location ->
  sf_submit form = true ->
  credentials (self w) !! lower (sf_username form) = Some r ->
  checkpw (sf_password form) (user_password r) = Ok true ->
  sf_new_password form <> "" ->
  sf_new_password form = sf_new_password_repeat form ->
  Hasher_generate (entropy w) (sf_new_password form) = Ok h ->
  reset_password form form_name location w
  = (Ok tt,
     with_ui (fun l => (l ++ [Success "Password reset successfully"])%list)
       (with_self (set_credentials
          (<[lower (sf_username form) :=
               mkUser (user_name r) h (user_email r)]> (credentials (self w))))
          (with_entropy N.succ
             (with_self (set_new_password_repeat (sf_new_password_repeat form))
                (with_self (set_new_password (sf_new_password form))
                   (with_self (set_password (sf_password form))
                      (with_self (set_username (lower (sf_username form))) w))))))).
Proof.
  intros Hloc Hsub Hr Hpw Hne Heq Hh. unfold reset_password. run.
  rewrite (location_checked _ _ Hloc), Hsub. simpl.
  erewrite (update_password_verified _ r); [| exact Hr | exact Hpw].
  simpl. rewrite (proj2 (Z.ltb_lt _ _) (len_nonempty _ Hne)).
  rewrite <- Heq, String.eqb_refl, Hh, reset_shown. reflexivity.
Qed.

(** X18.  After a password reset that succeeded, with the hash that [Hasher]
    returned for the new password, a submitted login form with the new
    password, for which the expiry date, the token and the expiry of the
    cookie are computed without an exception, signs that user in. *)
Theorem reset_then_login (Hhash : hash_verifies) w form form_name location r h
    form' form_name' location' (exp : Z) (t : jwt) (ea : Z) :
  valid_location location ->
  sf_submit form = true ->
  credentials (self w) !! lower (sf_username form) = Some r ->
  checkpw (sf_password form) (user_password r) = Ok true ->
  sf_new_password form <> "" ->
  sf_new_password form = sf_new_password_repeat form ->
  Hasher_generate (entropy w) (sf_new_password form) = Ok h ->
  truthy (ss_authentication_status (session w)) = false ->
  cookies w !! cookie_name (self w) = None ->
  valid_location location' ->
  lower (lf_username form') = lower (sf_username form) ->
  lf_password form' = sf_new_password form ->
  lf_submit form' = true ->
  can_issue w (PyStr (user_name r)) (PyStr (lower (sf_username form))) exp t ea ->
  (reset_password form form_name location w).1 = Ok tt
  /\ (login form' form_name' location'
        (reset_password form form_name location w).2).1
     = Ok (PyStr (user_name r), PyBool true, PyStr (lower (sf_username form))).
Proof.
  intros Hloc Hsub Hr Hpw Hne Heq Hh Hst Hc Hloc' Hu' Hp' Hsub' Hi.
  rewrite (reset_password_run w form form_name location r h
             Hloc Hsub Hr Hpw Hne Heq Hh).
  cbn [fst snd]. split; [reflexivity|].
  erewrite (login_accepted_run _ form' form_name' location'
              (mkUser (user_name r) h (user_email r)) exp t ea);
    [ | exact Hloc' | exact Hst | exact Hc | exact Hsub'
      | simpl; rewrite Hu'; apply lookup_insert_eq
      | simpl; rewrite Hp'; exact (Hhash _ _ _ Hh)
      | simpl; rewrite Hu'; exact Hi ].
  simpl. now rewrite Hu'.
Qed.

Lemma forgot_password_run (Hpw : random_pw_nonempty) w form form_name location r
    h :
  valid_location location ->
  ff_submit form = true ->
  credentials (self w) !! lower (ff_username form) = Some r ->
  let pw := generate_random_pw (entropy w) in
  Hasher_generate (N.succ (entropy w)) pw = Ok h ->
  forgot_password form form_name location w
  = (Ok (PyStr (lower (ff_username form)), PyStr (user_email r), PyStr pw),
     with_self (set_credentials
       (<[lower (ff_username form) := mkUser (user_name r) h (user_email r)]>
          (credentials (self w))))
       (with_entropy N.succ
          (with_self (set_random_password pw)
             (with_entropy N.succ
                (with_self (set_username (lower (ff_username form))) w))))).
Proof.
  intros Hloc Hsub Hr pw Hh. unfold forgot_password. run.
  rewrite (location_checked _ _ Hloc), Hsub. simpl.
  rewrite (set_password_known _ r h) by (try exact Hr; exact Hh).
  cbv zeta. rewrite (truthy_str _ (Hpw _)). simpl.
  rewrite lookup_insert_eq. reflexivity.
Qed.

(** X19.  The password that the forgot-password form returns, when [Hasher]
    returned a hash for it, is the password of the user from then on: a
    submitted login form with it, for which the expiry date, the token and
    the expiry of the cookie are computed without an exception, signs that
    user in. *)
Theorem forgot_then_login (Hpw : random_pw_nonempty) (Hhash : hash_verifies)
    w form form_name location r h form' form_name' location'
    (exp : Z) (t : jwt) (ea : Z) :
  valid_location location ->
  ff_submit form = true ->
  credentials (self w) !! lower (ff_username form) = Some r ->
  Hasher_generate (N.succ (entropy w)) (generate_random_pw (entropy w)) = Ok h ->
  truthy (ss_authentication_status (session w)) = false ->
  cookies w !! cookie_name (self w) = None ->
  valid_location location' ->
  lower (lf_username form') = lower (ff_username form) ->
  lf_password form' = generate_random_pw (entropy w) ->
  lf_submit form' = true ->
  can_issue w (PyStr (user_name r)) (PyStr (lower (ff_username form))) exp t ea ->
  (forgot_password form form_name location w).1
  = Ok (PyStr (lower (ff_username form)), PyStr (user_email r),
        PyStr (generate_random_pw (entropy w)))
  /\ (login form' form_name' location'
        (forgot_password form form_name location w).2).1
     = Ok (PyStr (user_name r), PyBool true, PyStr (lower (ff_username form))).
Proof.
  intros Hloc Hsub Hr Hh Hst Hc Hloc' Hu' Hp' Hsub' Hi.
  rewrite (forgot_password_run Hpw w form form_name location r h Hloc Hsub Hr Hh).
  cbn [fst snd]. split; [reflexivity|].
  erewrite (login_accepted_run _ form' form_name' location'
              (mkUser (user_name r) h (user_email r)) exp t ea);
    [ | exact Hloc' | exact Hst | exact Hc | exact Hsub'
      | simpl; rewrite Hu'; apply lookup_insert_eq
      | simpl; rewrite Hp'; exact (Hhash _ _ _ Hh)
      | simpl; rewrite Hu'; exact Hi ].
  simpl. now rewrite Hu'.
Qed.

(** ** The forms return normally *)

Lemma update_password_total w h :
  Hasher_generate (entropy w) (new_password (self w)) = Ok h ->
  exists status w' display,
    _update_password w = (Ok status, w')
    /\ ui w' = ui w
    /\ reset_password_status !! status = Some display
    /\ display status ∈ reset_messages.
Proof.
  intros Hh.
  assert (Hui : preserves ui _update_password) by preserve.
  specialize (Hui w). revert Hui.
  destruct (classic_verify w) as [(r & Hr & Hc) | Hv].
  - rewrite (update_password_verified w r Hr Hc), Hh.
    destruct (0 <? _); [destruct (String.eqb _ _)|]; simpl; intros Hui;
      do 3 eexists; (split; [reflexivity|]); (split; [exact Hui|]);
      (split; [vm_compute; reflexivity|]); unfold reset_messages;
      rewrite !elem_of_cons; tauto.
  - destruct (update_password_refused w Hv) as (w' & -> & _). simpl. intros Hui.
    do 3 eexists. split; [reflexivity|]. split; [exact Hui|].
    split; [vm_compute; reflexivity|]. unfold reset_messages.
    rewrite !elem_of_cons; tauto.
Qed.

Lemma register_credentials_total w h :
  Hasher_generate (entropy w) (new_password (self w)) = Ok h ->
  preauthorization (self w) = false
  \/ (exists d emails,
       preauthorized (self w) = PreDict d /\ d !! "emails" = Some emails
       /\ registered_email (self w) ∈ emails) ->
  exists status w' display,
    _register_credentials w = (Ok status, w')
    /\ ui w' = ui w
    /\ register_user_status !! status = Some display
    /\ display status ∈ register_messages.
Proof.
  intros Hh Hpre.
  unfold _register_credentials, preauthorized_emails_remove, preauthorized_emails.
  run.
  assert (Hdone : forall status w' display,
             ui w' = ui w ->
             register_user_status !! status = Some display ->
             display status ∈ register_messages ->
             exists status0 w0 display0,
               (Ok status, w') = (Ok status0, w0) /\ ui w0 = ui w
               /\ register_user_status !! status0 = Some display0
               /\ display0 status0 ∈ register_messages).
  { intros status w' display H1 H2 H3. exists status, w', display. auto. }
  destruct (_ && _);
    [|eapply Hdone; [reflexivity | vm_compute; reflexivity
                    | unfold register_messages; rewrite !elem_of_cons; tauto]].
  destruct (bool_decide _); simpl;
    [eapply Hdone; [reflexivity | vm_compute; reflexivity
                   | unfold register_messages; rewrite !elem_of_cons; tauto]|].
  destruct (String.eqb _ _);
    [|eapply Hdone; [reflexivity | vm_compute; reflexivity
                    | unfold register_messages; rewrite !elem_of_cons; tauto]].
  rewrite Hh.
  destruct (preauthorization (self w)) eqn:Hflag; simpl.
  - destruct Hpre as [? | (d & emails & Hd & He & Hin)]; [discriminate|].
    rewrite Hd, He. destruct (list_remove_elem _ _ Hin) as [emails' ->].
    simpl. rewrite Hd.
    eapply Hdone; [reflexivity | vm_compute; reflexivity
                  | unfold register_messages; rewrite !elem_of_cons; tauto].
  - eapply Hdone; [reflexivity | vm_compute; reflexivity
                  | unfold register_messages; rewrite !elem_of_cons; tauto].
Qed.

(** X20.  With a valid location and passwords for which [Hasher] returns a
    hash, no form raises for what the user typed: the reset form and, when
    [preauthorized] holds the emails, the registration form return normally
    and show, when submitted, exactly one of their messages; the
    forgot-password form returns normally and shows at most 'Username not
    found'.  The statuses that the helpers return are all keys of the
    dictionaries that display them. *)
Theorem forms_return_normally :
  (forall w form form_name location h,
      valid_location location ->
      Hasher_generate (entropy w) (sf_new_password form) = Ok h ->
      exists w',
        reset_password form form_name location w = (Ok tt, w')
        /\ if sf_submit form
           then exists m, m ∈ reset_messages /\ ui w' = (ui w ++ [m])%list
           else ui w' = ui w)
  /\ (forall w form form_name location pre d emails h,
      valid_location location ->
      preauthorized (self w) = PreDict d ->
      d !! "emails" = Some emails ->
      Hasher_generate (entropy w) (rf_password form) = Ok h ->
      exists w',
        register_user form form_name location pre w = (Ok tt, w')
        /\ if rf_submit form
           then exists m, m ∈ register_messages /\ ui w' = (ui w ++ [m])%list
           else ui w' = ui w)
  /\ (forall w form form_name location h,
      valid_location location ->
      Hasher_generate (N.succ (entropy w)) (generate_random_pw (entropy w)) = Ok h ->
      exists res w',
        forgot_password form form_name location w = (Ok res, w')
        /\ (ui w' = ui w \/ ui w' = (ui w ++ [Error "Username not found"])%list)).
Proof.
  split; [|split].
  - intros w form form_name location h Hloc Hh. unfold reset_password. run.
    rewrite (location_checked _ _ Hloc). simpl.
    destruct (sf_submit form); simpl; [|eauto].
    match goal with
    | |- context [_update_password ?x] =>
        destruct (update_password_total x h Hh)
          as (status & w1 & display & -> & Hui & -> & Hm)
    end.
    simpl in *. eexists. split; [reflexivity|]. simpl. rewrite Hui. eauto.
  - intros w form form_name location pre d emails h Hloc Hd He Hh.
    unfold register_user, preauthorized_emails. run. rewrite Hd. simpl.
    destruct (bool_decide (d = ∅)) eqn:Hempty.
    { apply bool_decide_eq_true in Hempty. subst d. rewrite lookup_empty in He.
      discriminate. }
    simpl. rewrite (location_checked _ _ Hloc). simpl.
    destruct (rf_submit form); simpl; [|eauto].
    destruct pre; simpl.
    + rewrite Hd, He.
      destruct (decide (rf_email form ∈ emails)) as [Hin | Hout].
      * rewrite (bool_decide_eq_true_2 _ Hin).
        match goal with
        | |- context [_register_credentials ?x] =>
            destruct (register_credentials_total x h Hh)
              as (status & w1 & display & -> & Hui & -> & Hm);
              [right; exists d, emails; auto|]
        end.
        simpl in *. eexists. split; [reflexivity|]. simpl. rewrite Hui. eauto.
      * rewrite (bool_decide_eq_false_2 _ Hout). eexists. split; [reflexivity|].
        simpl. eexists. split; [|reflexivity].
        unfold register_messages. rewrite !elem_of_cons. tauto.
    + match goal with
      | |- context [_register_credentials ?x] =>
          destruct (register_credentials_total x h Hh)
            as (status & w1 & display & -> & Hui & -> & Hm); [left; reflexivity|]
      end.
      simpl in *. eexists. split; [reflexivity|]. simpl. rewrite Hui. eauto.
  - intros w form form_name location h Hloc Hh. unfold forgot_password. run.
    rewrite (location_checked _ _ Hloc). simpl.
    destruct (ff_submit form); [|eauto].
    destruct (credentials (self w) !! lower (ff_username form)) as [r|] eqn:Hr.
    + rewrite (set_password_known _ r h) by (try exact Hr; exact Hh). cbv zeta.
      destruct (truthy _); simpl; [|eauto].
      rewrite lookup_insert_eq. simpl. eauto.
    + rewrite set_password_unknown by exact Hr. simpl. eauto.
Qed.

(** ** The usernames that the constructor keeps *)

Lemma lower_keys_snoc items k r :
  lower_keys (items ++ [(k, r)])%list = <[lower k := r]> (lower_keys items).
Proof. unfold lower_keys. now rewrite foldl_snoc. Qed.

Lemma lower_keys_last items1 k r items2 :
  (forall kv, kv ∈ items2 -> lower kv.1 <> lower k) ->
  lower_keys (items1 ++ (k, r) :: items2)%list !! lower k = Some r.
Proof.
  induction items2 as [|[k' r'] items2 IH] using rev_ind; intros Hlater.
  - rewrite lower_keys_snoc. apply lookup_insert_eq.
  - rewrite app_comm_cons, app_assoc, lower_keys_snoc.
    rewrite lookup_insert_ne.
    + apply IH. intros kv Hin. apply Hlater, elem_of_app. now left.
    + apply (Hlater (k', r')), elem_of_app. right. now apply list_elem_of_singleton.
Qed.

Lemma lower_keys_dom items :
  dom (lower_keys items) = list_to_set ((fun kv => lower kv.1) <$> items).
Proof.
  induction items as [|[k r] items IH] using rev_ind.
  - unfold lower_keys. simpl. apply dom_empty_L.
  - rewrite lower_keys_snoc, dom_insert_L, IH, fmap_app, list_to_set_app_L.
    simpl. rewrite (right_id_L ∅ (∪)). apply (comm_L (∪)).
Qed.

(** X21.  The usernames map of a new object has exactly the lowered keys of the
    dictionary it was given.  Under a lowered key it holds the entry of the
    last item whose key lowers to it, so of two usernames that differ in
    case only the earlier one is lost; when no two keys lower to the same
    string, every user is found under the lowered username. *)
Theorem init_usernames items cookie_name key days pre raw jar seed clk :
  let m := credentials
             (self (__init__ items cookie_name key days pre raw jar seed clk)) in
  dom m = list_to_set ((fun kv => lower kv.1) <$> items)
  /\ (forall items1 k r items2,
      items = (items1 ++ (k, r) :: items2)%list ->
      (forall kv, kv ∈ items2 -> lower kv.1 <> lower k) ->
      m !! lower k = Some r)
  /\ (NoDup ((fun kv => lower kv.1) <$> items) ->
      forall k r, (k, r) ∈ items -> m !! lower k = Some r).
Proof.
  intros m. subst m. simpl. split; [apply lower_keys_dom|]. split.
  - intros items1 k r items2 -> Hlater. now apply lower_keys_last.
  - intros Hnd k r Hin.
    destruct (list_elem_of_split _ _ Hin) as (items1 & items2 & ->).
    apply lower_keys_last. intros kv Hkv Heq.
    rewrite fmap_app, fmap_cons in Hnd.
    apply NoDup_app in Hnd as (_ & _ & Hnd). apply NoDup_cons in Hnd as [Hnot _].
    apply Hnot. simpl. rewrite <- Heq.
    apply (list_elem_of_fmap_2 (fun kv => lower kv.1)), Hkv.
Qed.

(** ** What the widgets never write *)

(** X22.  The reset, registration and forgot-password forms never write session
    state or the cookies: none of them logs anyone in or out.  Only the
    registration form writes the preauthorized emails. *)
Theorem forms_leave_session_alone :
  (forall form form_name location,
      preserves session (reset_password form form_name location)
      /\ preserves cookies (reset_password form form_name location)
      /\ preserves (fun w => preauthorized (self w))
           (reset_password form form_name location))
  /\ (forall form form_name location pre,
      preserves session (register_user form form_name location pre)
      /\ preserves cookies (register_user form form_name location pre))
  /\ (forall form form_name location,
      preserves session (forgot_password form form_name location)
      /\ preserves cookies (forgot_password form form_name location)
      /\ preserves (fun w => preauthorized (self w))
           (forgot_password form form_name location)).
Proof. repeat split; preserve. Qed.

(** X23.  The login and logout widgets never write the credentials map or the
    preauthorized emails. *)
Theorem login_logout_leave_store_alone :
  (forall form form_name location,
      preserves (fun w => credentials (self w)) (login form form_name location)
      /\ preserves (fun w => preauthorized (self w)) (login form form_name location))
  /\ (forall pressed button_name location,
      preserves (fun w => credentials (self w)) (logout pressed button_name location)
      /\ preserves (fun w => preauthorized (self w))
           (logout pressed button_name location)).
Proof. repeat split; preserve. Qed.

End Properties.

(** * The properties at work

    The theorems above, applied to the idealised libraries and the small
    application of [Ideal]. *)

Import Ideal.

(** Splits a conjunction of facts about concrete worlds. *)
Ltac conjuncts := repeat match goal with |- _ /\ _ => split end.


Lemma ideal_random_pw_nonempty : @random_pw_nonempty libraries.
Proof. intros n. discriminate. Qed.



Lemma check_credentials_swallows_witness :
  exists w',
    _check_credentials true (typed "rbriggs" "def" app) = (Ok PyNone, w')
    /\ py_eq PyNone (PyBool true) = false
    /\ session w' = session (typed "rbriggs" "def" app)
    /\ cookies w' = cookies (typed "rbriggs" "def" app)
    /\ self w' = self (typed "rbriggs" "def" app)
    /\ stdout w' = (stdout (typed "rbriggs" "def" app) ++ [ValueError "Invalid salt"])%list.
Proof.
  apply (check_credentials_swallows (typed "rbriggs" "def" app) rbriggs
           (ValueError "Invalid salt") true); vm_compute; reflexivity.
Defined.





Lemma register_taken_username_witness :
  _register_credentials (registering "new@mail.org" "jsmith" "John" "pw1" "pw2" false app)
  = (Ok "Username already taken",
     registering "new@mail.org" "jsmith" "John" "pw1" "pw2" false app).
Proof.
  apply register_taken_username; [discriminate .. |].
  apply elem_of_dom. vm_compute. eauto.
Defined.

(** C4 as stated fails: with a username that is taken and an empty
    password, the status is the one that asks for the fields. *)
Lemma register_taken_username_empty_password :
  new_username (self taken_no_password) ∈ dom (credentials (self taken_no_password))
  /\ _register_credentials taken_no_password
     = (Ok "Please enter a new username, name, and password", taken_no_password).
Proof.
  split; [apply elem_of_dom; vm_compute; eauto | vm_compute; reflexivity].
Qed.

Lemma register_mismatch_keeps_store_witness :
  (exists status w',
      _register_credentials
        (registering "melsby@gmail.com" "melsby" "Mel" "pw1" "pw2" true app)
      = (Ok status, w')
      /\ status <> "User registered successfully"
      /\ credentials (self w') = credentials (self app)
      /\ preauthorized (self w') = preauthorized (self app))
  /\ credentials
       (self (register_user
                (mkRegisterForm "melsby@gmail.com" "Melsby" "Mel" "pw1" "pw2" true)
                "Register" "main" true app).2)
     = credentials (self app).
Proof.
  destruct (@register_mismatch_keeps_store libraries) as [H1 H2]. split.
  - apply (H1 (registering "melsby@gmail.com" "melsby" "Mel" "pw1" "pw2" true app)).
    discriminate.
  - apply (H2 app (mkRegisterForm "melsby@gmail.com" "Melsby" "Mel" "pw1" "pw2" true)
             "Register" "main" true).
    discriminate.
Defined.

Lemma update_password_iff_witness :
  (_update_password (resetting "jsmith" "abc" "new" "new" app)).1
  = Ok "Password reset successfully"
  /\ (_update_password (resetting "jsmith" "xyz" "new" "new" app)).1
     = Ok "Username/password is incorrect"
  /\ (_update_password (resetting "jsmith" "abc" "" "" app)).1
     = Ok "Please enter a new password"
  /\ (_update_password (resetting "jsmith" "abc" "new" "old" app)).1
     = Ok "Passwords do not match"
  /\ (_update_password (resetting "jsmith" "abc" long_password long_password app)).1
     = Raise (ValueError "password cannot be longer than 72 bytes, truncate manually if necessary (e.g. my_password[:72])").
Proof.
  assert (Hv : forall new new2,
             credentials_verify (resetting "jsmith" "abc" new new2 app)).
  { intros new new2. exists jsmith. split; vm_compute; reflexivity. }
  split; [|split; [|split; [|split]]].
  - apply (proj1 (update_password_iff (resetting "jsmith" "abc" "new" "new" app))).
    split; [apply Hv | split; [discriminate | split; [reflexivity|]]].
    exists "$2b$new". vm_compute; reflexivity.
  - apply (proj1 (proj2 (proj2 (proj2
             (update_password_iff (resetting "jsmith" "xyz" "new" "new" app)))))).
    intros (r & Hr & Hc). vm_compute in Hr. injection Hr as <-.
    vm_compute in Hc. discriminate.
  - apply (proj1 (proj2 (proj2 (proj2 (proj2
             (update_password_iff (resetting "jsmith" "abc" "" "" app))))))).
    + apply Hv.
    + reflexivity.
  - apply (proj1 (proj2 (proj2 (proj2 (proj2 (proj2
             (update_password_iff (resetting "jsmith" "abc" "new" "old" app)))))))).
    + apply Hv.
    + discriminate.
    + discriminate.
  - apply (proj2 (proj2 (proj2 (proj2 (proj2 (proj2
             (update_password_iff
                (resetting "jsmith" "abc" long_password long_password app)))))))).
    + apply Hv.
    + discriminate.
    + reflexivity.
    + vm_compute; reflexivity.
Defined.

(** C6 as stated fails: the current credentials verify and the new
    password, of 73 bytes, is not empty and equals its confirmation, yet
    nothing is overwritten: [Hasher] raises [ValueError], which leaves
    [_update_password]; there is no status, and the stored hash is the old
    one. *)
Lemma update_password_long_password :
  credentials_verify (resetting "jsmith" "abc" long_password long_password app)
  /\ new_password (self (resetting "jsmith" "abc" long_password long_password app))
     <> ""
  /\ new_password (self (resetting "jsmith" "abc" long_password long_password app))
     = new_password_repeat
         (self (resetting "jsmith" "abc" long_password long_password app))
  /\ (_update_password (resetting "jsmith" "abc" long_password long_password app)).1
     = Raise (ValueError "password cannot be longer than 72 bytes, truncate manually if necessary (e.g. my_password[:72])")
  /\ credentials
       (self (_update_password
                (resetting "jsmith" "abc" long_password long_password app)).2)
       !! "jsmith"
     = Some jsmith.
Proof.
  split; [exists jsmith; split; vm_compute; reflexivity|].
  split; [discriminate|]. conjuncts; vm_compute; reflexivity.
Qed.

Lemma forgot_password_cases_witness :
  (exists w',
      forgot_password (mkForgotForm "Nobody" true) "Forgot" "main" app
      = (Ok (PyNone, PyNone, PyNone), w')
      /\ credentials (self w') = credentials (self app))
  /\ (exists w',
      forgot_password (mkForgotForm "JSmith" true) "Forgot" "sidebar" app
      = (Ok (PyStr "jsmith", PyStr "jsmith@gmail.com", PyStr "aq7Xw2m"), w')
      /\ credentials (self w')
         = <["jsmith" := mkUser "John Smith" "$2b$aq7Xw2m" "jsmith@gmail.com"]>
             (credentials (self app))).
Proof.
  split.
  - apply (proj1 (forgot_password_cases ideal_random_pw_nonempty app
                    (mkForgotForm "Nobody" true) "Forgot" "main"
                    (or_introl eq_refl))).
    vm_compute; reflexivity.
  - apply (proj2 (forgot_password_cases ideal_random_pw_nonempty app
                    (mkForgotForm "JSmith" true) "Forgot" "sidebar"
                    (or_intror eq_refl)) jsmith "$2b$aq7Xw2m");
      vm_compute; reflexivity.
Defined.

Lemma usernames_case_normalized_witness :
  lowercase_keys (credentials (self app))
  /\ lowercase_keys
       (credentials
          (self (register_user
                   (mkRegisterForm "melsby@gmail.com" "MElsby" "Mel" "pw" "pw" true)
                   "Register" "main" true app).2))
  /\ dom (credentials
            (self (reset_password (mkResetForm "JSmith" "abc" "new" "new" true)
                     "Reset" "main" app).2))
     = dom (credentials (self app))
  /\ dom (credentials
            (self (forgot_password (mkForgotForm "JSmith" true) "Forgot" "main"
                     app).2))
     = dom (credentials (self app)).
Proof.
  destruct (@usernames_case_normalized libraries) as (H1 & H2 & H3 & H4).
  assert (Happ : lowercase_keys (credentials (self app))).
  { apply (H1 items "some_cookie_name" "some_signature_key" 30
             (PreDict {["emails" := ["melsby@gmail.com"]]}) ∅ ∅ 0%N
             (mkClock 1000 4600)). }
  split; [exact Happ|]. split; [|split].
  - apply (H2 app _ "Register" "main" true Happ).
  - apply (H3 app _ "Reset" "main" Happ).
  - apply (H4 app _ "Forgot" "main" Happ).
Defined.

Lemma register_user_requires_preauthorized_witness :
  register_user (mkRegisterForm "new@mail.org" "newuser" "New" "pw" "pw" true)
    "Register" "main" false (revisit_other_key 2000)
  = (Raise (ValueError "Register argument must not be None"), revisit_other_key 2000).
Proof.
  apply register_user_requires_preauthorized. left. reflexivity.
Defined.

Lemma ideal_hash_verifies : @hash_verifies libraries.
Proof.
  intros n p h. unfold Hasher_generate, checkpw; simpl. unfold hash, check.
  destruct (too_long p); [discriminate|]. intros [= <-].
  change (String.append "$2b$" p)
    with (String "$" (String "2" (String "b" (String "$" p)))).
  simpl. rewrite String.eqb_refl. destruct p; reflexivity.
Qed.

Ltac decided := apply (bool_decide_unpack _); vm_compute; exact I.

(** A hypothesis about a concrete input, settled by evaluation. *)
Ltac holds :=
  first [ vm_compute; reflexivity | left; reflexivity | right; reflexivity
        | discriminate | decided | solve [vm_compute; repeat split] ].

Lemma invalid_location_raises_witness :
  login (mkLoginForm "JSmith" "abc" true) "Login" "top" app
  = (Raise (ValueError "Location must be one of 'main' or 'sidebar'"), app)
  /\ register_user melsby_form "Register" "Sidebar" true app
     = (Raise (ValueError "Location must be one of 'main' or 'sidebar'"), app).
Proof.
  split.
  - apply (proj1 (invalid_location_raises "top"
                    ltac:(intros [H | H]; discriminate))).
  - apply (proj2 (proj2 (proj2 (proj2 (invalid_location_raises "Sidebar"
                    ltac:(intros [H | H]; discriminate)))))).
    vm_compute; reflexivity.
Defined.

Lemma login_authenticated_noop_witness :
  login (mkLoginForm "rbriggs" "whatever" true) "Login" "main" signed_in
  = (Ok (PyStr "John Smith", PyBool true, PyStr "jsmith"), signed_in).
Proof.
  apply (login_authenticated_noop signed_in (mkLoginForm "rbriggs" "whatever" true)
           "Login" "main"); holds.
Defined.

Lemma login_by_cookie_witness :
  exists w',
    login (mkLoginForm "rbriggs" "def" true) "Login" "sidebar" (revisit 2000)
    = (Ok (PyStr "John Smith", PyBool true, PyStr "jsmith"), w')
    /\ ui w' = [].
Proof.
  destruct (login_by_cookie (revisit 2000) (mkLoginForm "rbriggs" "def" true)
              "Login" "sidebar"
              (mkCookie jsmith_token 2596600)
              (token_payload (PyStr "John Smith") (PyStr "jsmith") 2593000)
              2593000 (PyStr "John Smith") (PyStr "jsmith"))
    as (w' & H & _ & _ & _ & _ & _ & Hui);
    [holds ..|].
  exists w'. split; [exact H | exact Hui].
Defined.

Lemma login_rejected_witness :
  (exists w',
      login (mkLoginForm "JSmith" "wrong" true) "Login" "main" app
      = (Ok (PyNone, PyBool false, PyStr "jsmith"), w')
      /\ cookies w' = ∅)
  /\ (exists w',
      login (mkLoginForm "nobody" "abc" true) "Login" "main" app
      = (Ok (PyNone, PyBool false, PyStr "nobody"), w')
      /\ cookies w' = ∅).
Proof.
  split.
  - destruct (login_rejected app (mkLoginForm "JSmith" "wrong" true) "Login" "main")
      as (w' & H & Hc & _);
      [holds .. | |].
    + right. exists jsmith. split; vm_compute; reflexivity.
    + exists w'. split; [exact H | exact Hc].
  - destruct (login_rejected app (mkLoginForm "nobody" "abc" true) "Login" "main")
      as (w' & H & Hc & _);
      [holds .. | |].
    + left. vm_compute; reflexivity.
    + exists w'. split; [exact H | exact Hc].
Defined.


Lemma login_waiting_witness :
  exists w',
    login (mkLoginForm "JSmith" "" false) "Login" "main" app
    = (Ok (PyNone, PyNone, PyStr "jsmith"), w')
    /\ ui w' = [Warning "Please enter your username and password"].
Proof.
  destruct (login_waiting app (mkLoginForm "JSmith" "" false) "Login" "main")
    as (w' & H & Hui & _);
    [holds ..|].
  exists w'. split; [exact H | exact Hui].
Defined.

Lemma login_check_raises_witness :
  exists w',
    login (mkLoginForm "rbriggs" "def" true) "Login" "main" app
    = (Ok (PyNone, PyNone, PyStr "rbriggs"), w')
    /\ ui w' = [Warning "Please enter your username and password"]
    /\ stdout w' = [ValueError "Invalid salt"].
Proof.
  destruct (login_check_raises app (mkLoginForm "rbriggs" "def" true) "Login" "main"
              rbriggs (ValueError "Invalid salt"))
    as (w' & H & Hui & Hout & _);
    [holds ..|].
  exists w'. split; [exact H|]. split; [exact Hui | exact Hout].
Defined.


Lemma logout_then_login_witness :
  (exists w',
      login (mkLoginForm "" "" false) "Login" "main"
        (logout true "Logout" "sidebar" signed_in).2
      = (Ok (PyNone, PyNone, PyStr ""), w')
      /\ ss_logout (session w') = PyBool true)
  /\ logout true "Logout" "sidebar" (cookie_dropped signed_in)
     = (Raise (KeyError "some_cookie_name"), cookie_dropped signed_in).
Proof.
  split.
  - destruct (proj1 (logout_then_login signed_in "Logout" "sidebar"
                       (mkLoginForm "" "" false) "Login" "main"
                       (or_intror eq_refl) (or_introl eq_refl)
                       ltac:(discriminate) eq_refl)
                (mkCookie jsmith_token 2596600))
      as (w' & H & _ & _ & Hl);
      [holds ..|].
    exists w'. split; [exact H | exact Hl].
  - apply (proj2 (logout_then_login (cookie_dropped signed_in) "Logout" "sidebar"
                    (mkLoginForm "" "" false) "Login" "main"
                    (or_intror eq_refl) (or_introl eq_refl)
                    ltac:(discriminate) eq_refl)).
    vm_compute; reflexivity.
Defined.

Lemma cookie_payload_keys_witness :
  (exists w', _check_cookie (presenting ∅) = (Raise (KeyError "exp_date"), w'))
  /\ (exists msg w',
      _check_cookie (presenting {["exp_date" := PyStr "tomorrow"]})
      = (Raise (TypeError msg), w'))
  /\ cookie_check_gives (presenting (<["name" := PyStr "John Smith"]>
                                       {["exp_date" := PyNum 5000]}))
       (session app)
  /\ (exists w',
      _check_cookie (presenting (<["username" := PyStr "jsmith"]>
                                   {["exp_date" := PyNum 5000]}))
      = (Raise (KeyError "name"), w')).
Proof.
  split; [|split; [|split]].
  - destruct (cookie_payload_keys (presenting ∅)
                (presented ∅) ∅)
      as (H & _); [holds ..|].
    destruct H as (w' & H & _); [holds ..|]. eauto.
  - destruct (cookie_payload_keys (presenting {["exp_date" := PyStr "tomorrow"]})
                (presented ({["exp_date" := PyStr "tomorrow"]}))
                {["exp_date" := PyStr "tomorrow"]})
      as (_ & H & _); [holds ..|].
    destruct H as (msg & w' & H & _);
      [right; exists "tomorrow"; vm_compute; reflexivity|]. eauto.
  - destruct (cookie_payload_keys
                (presenting (<["name" := PyStr "John Smith"]>
                               {["exp_date" := PyNum 5000]}))
                (presented (<["name" := PyStr "John Smith"]>
                             {["exp_date" := PyNum 5000]}))
                (<["name" := PyStr "John Smith"]> {["exp_date" := PyNum 5000]}))
      as (_ & _ & H & _); [holds ..|].
    apply (H 5000); vm_compute; reflexivity.
  - destruct (cookie_payload_keys
                (presenting (<["username" := PyStr "jsmith"]>
                               {["exp_date" := PyNum 5000]}))
                (presented (<["username" := PyStr "jsmith"]>
                             {["exp_date" := PyNum 5000]}))
                (<["username" := PyStr "jsmith"]> {["exp_date" := PyNum 5000]}))
      as (_ & _ & _ & H); [holds ..|].
    destruct (H 5000 (PyStr "jsmith")) as (w' & Hr & _);
      [holds ..|]. eauto.
Defined.

Lemma check_cookie_accepts_only_witness :
  exists c d v,
    cookies (revisit 2000) !! "some_cookie_name" = Some c
    /\ jwt_decode (cookie_value c) "some_signature_key" = Ok d
    /\ d !! "exp_date" = Some v.
Proof.
  destruct (check_cookie_accepts_only (revisit 2000))
    as (c & d & v & Hc & Hd & _ & Hv & _).
  - vm_compute. discriminate.
  - exists c, d, v. split; [exact Hc|]. split; [exact Hd | exact Hv].
Defined.

Lemma register_open_witness :
  exists w',
    register_user melsby_form "Register" "main" false app = (Ok tt, w')
    /\ credentials (self w') !! "melsby"
       = Some (mkUser "Mel Elsby" "$2b$s3cret" "melsby@gmail.com")
    /\ session w' = session app.
Proof.
  destruct (register_open app melsby_form "Register" "main" "$2b$s3cret")
    as (w' & H & Hc & _ & Hs & _);
      [holds ..|].
  exists w'. split; [exact H|]. split; [|exact Hs].
  rewrite Hc. apply lookup_insert_eq.
Defined.

Lemma register_preauthorized_witness :
  exists w' emails',
    register_user melsby_form "Register" "main" true app = (Ok tt, w')
    /\ preauthorized (self w') = PreDict (<["emails" := emails']> {["emails" := ["melsby@gmail.com"]]})
    /\ ["melsby@gmail.com"] ≡ₚ "melsby@gmail.com" :: emails'.
Proof.
  destruct (register_preauthorized app melsby_form "Register" "main"
              {["emails" := ["melsby@gmail.com"]]} ["melsby@gmail.com"]
              "$2b$s3cret")
    as (w' & emails' & H & _ & Hp & Hperm & _);
    [holds ..|].
  exists w', emails'. split; [exact H|]. split; [exact Hp | exact Hperm].
Defined.

Lemma register_unauthorized_witness :
  exists w',
    register_user (mkRegisterForm "eve@mail.org" "eve" "Eve" "pw" "pw" true)
      "Register" "main" true app
    = (Ok tt, w')
    /\ credentials (self w') = credentials (self app)
    /\ ui w' = [Error "User not authorized to register"].
Proof.
  destruct (register_unauthorized app
              (mkRegisterForm "eve@mail.org" "eve" "Eve" "pw" "pw" true)
              "Register" "main" {["emails" := ["melsby@gmail.com"]]}
              ["melsby@gmail.com"])
    as (w' & H & Hc & _ & Hui);
    [holds ..|].
  exists w'. split; [exact H|]. split; [exact Hc | exact Hui].
Defined.

Lemma preauthorized_email_single_use_witness :
  (register_user melsby_form "Register" "main" true app).1 = Ok tt
  /\ exists w2,
      register_user
        (mkRegisterForm "melsby@gmail.com" "second" "Second" "pw" "pw" true)
        "Register" "main" true
        (register_user melsby_form "Register" "main" true app).2
      = (Ok tt, w2)
      /\ credentials (self w2)
         = credentials (self (register_user melsby_form "Register" "main" true app).2).
Proof.
  destruct (preauthorized_email_single_use app melsby_form "Register" "main"
              {["emails" := ["melsby@gmail.com"]]} ["melsby@gmail.com"]
              "$2b$s3cret"
              (mkRegisterForm "melsby@gmail.com" "second" "Second" "pw" "pw" true)
              "Register" "main")
    as (Hok & _ & w2 & H & Hc & _);
    [holds ..|].
  split; [exact Hok|]. exists w2. split; [exact H | exact Hc].
Defined.

Lemma register_without_emails_witness :
  (exists w',
      register_user melsby_form "Register" "main" true
        (app_with (PreList ["melsby@gmail.com"]))
      = (Raise (TypeError "list indices must be integers or slices, not str"), w'))
  /\ (exists w',
      register_user melsby_form "Register" "main" true
        (app_with (PreDict {["mails" := ["melsby@gmail.com"]]}))
      = (Raise (KeyError "emails"), w')).
Proof.
  split.
  - destruct (proj1 (register_without_emails
                       (app_with (PreList ["melsby@gmail.com"])) melsby_form
                       "Register" "main" (or_introl eq_refl) eq_refl)
                ["melsby@gmail.com"])
      as (w' & H & _); [holds ..|]. eauto.
  - destruct (proj2 (register_without_emails
                       (app_with (PreDict {["mails" := ["melsby@gmail.com"]]}))
                       melsby_form "Register" "main" (or_introl eq_refl) eq_refl)
                {["mails" := ["melsby@gmail.com"]]})
      as (w' & H & _);
      [ intros E; apply (f_equal (fun m => m !! "mails")) in E;
        vm_compute in E; discriminate
      | reflexivity | vm_compute; reflexivity |].
    eauto.
Defined.

Lemma register_then_login_witness :
  (login (mkLoginForm "MELSBY" "s3cret" true) "Login" "main"
     (register_user melsby_form "Register" "main" false app).2).1
  = Ok (PyStr "Mel Elsby", PyBool true, PyStr "melsby").
Proof.
  apply (register_then_login ideal_hash_verifies app melsby_form "Register" "main"
           "$2b$s3cret" (mkLoginForm "MELSBY" "s3cret" true) "Login" "main"
           2593000
           (token_payload (PyStr "Mel Elsby") (PyStr "melsby") 2593000,
            "some_signature_key")
           2596600); holds.
Defined.

Lemma reset_then_login_witness :
  (login (mkLoginForm "jsmith" "n3w" true) "Login" "main"
     (reset_password (mkResetForm "JSmith" "abc" "n3w" "n3w" true) "Reset" "main"
        app).2).1
  = Ok (PyStr "John Smith", PyBool true, PyStr "jsmith").
Proof.
  apply (reset_then_login ideal_hash_verifies app
           (mkResetForm "JSmith" "abc" "n3w" "n3w" true) "Reset" "main" jsmith
           "$2b$n3w" (mkLoginForm "jsmith" "n3w" true) "Login" "main"
           2593000 jsmith_token 2596600); holds.
Defined.

Lemma forgot_then_login_witness :
  (forgot_password (mkForgotForm "JSmith" true) "Forgot" "main" app).1
  = Ok (PyStr "jsmith", PyStr "jsmith@gmail.com", PyStr "aq7Xw2m")
  /\ (login (mkLoginForm "jsmith" "aq7Xw2m" true) "Login" "main"
        (forgot_password (mkForgotForm "JSmith" true) "Forgot" "main" app).2).1
     = Ok (PyStr "John Smith", PyBool true, PyStr "jsmith").
Proof.
  apply (forgot_then_login ideal_random_pw_nonempty ideal_hash_verifies app
           (mkForgotForm "JSmith" true) "Forgot" "main" jsmith "$2b$aq7Xw2m"
           (mkLoginForm "jsmith" "aq7Xw2m" true) "Login" "main"
           2593000 jsmith_token 2596600); holds.
Defined.

Lemma forms_return_normally_witness :
  (exists w',
      reset_password (mkResetForm "JSmith" "abc" "n3w" "other" true) "Reset" "main" app
      = (Ok tt, w'))
  /\ (exists w', register_user melsby_form "Register" "sidebar" true app = (Ok tt, w'))
  /\ (exists res w',
      forgot_password (mkForgotForm "nobody" true) "Forgot" "main" app = (Ok res, w')).
Proof.
  destruct (@forms_return_normally libraries) as (H1 & H2 & H3).
  split; [|split].
  - destruct (H1 app (mkResetForm "JSmith" "abc" "n3w" "other" true) "Reset" "main"
                "$2b$n3w")
      as (w' & H & _); [holds ..|]. eauto.
  - destruct (H2 app melsby_form "Register" "sidebar" true
                {["emails" := ["melsby@gmail.com"]]} ["melsby@gmail.com"]
                "$2b$s3cret")
      as (w' & H & _); [holds ..|].
    eauto.
  - destruct (H3 app (mkForgotForm "nobody" true) "Forgot" "main" "$2b$aq7Xw2m")
      as (res & w' & H & _); [holds ..|]. eauto.
Defined.

Lemma init_usernames_witness :
  credentials (self app) !! "jsmith" = Some jsmith
  /\ credentials
       (self (__init__ [("Bob", jsmith); ("bob", rbriggs)] "c" "k" 30 PreNone ∅ ∅
                0%N (mkClock 0 0))) !! "bob"
     = Some rbriggs.
Proof.
  split.
  - apply (proj2 (proj2 (init_usernames items "some_cookie_name" "some_signature_key"
                           30 (PreDict {["emails" := ["melsby@gmail.com"]]}) ∅ ∅ 0%N
                           (mkClock 1000 4600)))
             ltac:(decided) "JSmith" jsmith).
    unfold items. constructor.
  - apply (proj1 (proj2 (init_usernames [("Bob", jsmith); ("bob", rbriggs)] "c" "k"
                           30 PreNone ∅ ∅ 0%N (mkClock 0 0)))
             [("Bob", jsmith)] "bob" rbriggs [] eq_refl).
    intros kv H. inversion H.
Defined.
